(** * sihas-canary sensor platform: register decoding and virtual sensors

    A shallow embedding of [sensor.py]: the two tables of measurement
    definitions ([AQM_GENERIC_SENSOR_DEFINE], [PMM_GENERIC_SENSOR_DEFINE]),
    their [value_handler] lambdas, the virtual sensor entities with their
    [update] method, and [async_setup_entry].

    Python integers are [Z], Python floats are IEEE-754 binary64 values
    ([spec_float] at precision 53), a Python list of registers is a [list Z],
    a [dict] is a [gmap], and a raised exception is the [Raise] branch of
    [result]. *)

From Stdlib Require Import ZArith Floats.SpecFloat.
From stdpp Require Import base option list strings gmap pretty.

Open Scope Z_scope.

(** ** Exceptions and results *)

Inductive exn : Type :=
| IndexError
| KeyError
| ZeroDivisionError
| OverflowError.

Inductive result (A : Type) : Type :=
| Ok (a : A)
| Raise (e : exn).
Arguments Ok {A} a.
Arguments Raise {A} e.

Definition bind {A B : Type} (m : result A) (k : A -> result B) : result B :=
  match m with
  | Ok a => k a
  | Raise e => Raise e
  end.

Declare Scope py_scope.
Delimit Scope py_scope with py.
Notation "x <- m ;; k" := (bind m (fun x => k))
  (at level 100, m at next level, right associativity) : py_scope.
Open Scope py_scope.

(** ** Python numbers *)

Inductive pyval : Type :=
| VInt (z : Z)
| VFloat (f : spec_float).

Definition prec : Z := 53.
Definition emax : Z := 1024.

(** [r[i]] for a literal, non-negative index [i]. *)
Definition getitem (r : list Z) (i : nat) : result Z :=
  match r !! i with
  | Some x => Ok x
  | None => Raise IndexError
  end.

(** An integer as an exact (not normalised) binary value [m * 2^0]. *)
Definition exact_int (z : Z) : spec_float :=
  match z with
  | Z0 => S754_zero false
  | Zpos m => S754_finite false m 0
  | Zneg m => S754_finite true m 0
  end.

(** [a / b] on two Python ints: the correctly rounded quotient. *)
Definition int_truediv (a b : Z) : result spec_float :=
  match b, a with
  | Z0, _ => Raise ZeroDivisionError
  | _, Z0 => Ok (S754_zero (b <? 0))
  | _, _ =>
      match SFdiv prec emax (exact_int a) (exact_int b) with
      | S754_infinity _ => Raise OverflowError
      | q => Ok q
      end
  end.

(** Nearest integer to [n / d] ([d > 0], [n >= 0]), ties to the even one. *)
Definition div_half_even (n d : Z) : Z :=
  let q := n / d in
  let rem := n mod d in
  match (2 * rem ?= d) with
  | Lt => q
  | Gt => q + 1
  | Eq => if Z.even q then q else q + 1
  end.

(** The magnitude of a finite float, scaled by [10^ndigits] and rounded to
    the nearest integer (ties to even): the decimal digits that
    [round(x, ndigits)] keeps. *)
Definition decimal_digits (m : positive) (e : Z) (ndigits : Z) : Z :=
  let scaled := Z.pos m * 10 ^ ndigits in
  match e with
  | Zneg p => div_half_even scaled (2 ^ Z.pos p)
  | _ => scaled * 2 ^ e
  end.

(** [round(x, ndigits)] on a float, for [0 <= ndigits]: the digits of [x]
    correctly rounded to [ndigits] places, read back as the nearest float. *)
Definition float_round (x : spec_float) (ndigits : Z) : result spec_float :=
  match x with
  | S754_finite s m e =>
      match decimal_digits m e ndigits with
      | Z0 => Ok (S754_zero s)
      | n =>
          match SFdiv prec emax (exact_int (if s then - n else n))
                                (exact_int (10 ^ ndigits)) with
          | S754_infinity _ => Raise OverflowError
          | y => Ok y
          end
      end
  | _ => Ok x
  end.

(** Modelled from the spec: [register_put_u32] is imported from [util.py],
    which is not part of the sources at hand.  The spec describes the
    composite as "two registers form one unsigned 32-bit quantity, low word
    then high word: value = raw[low_idx] + raw[high_idx] * 65536". *)
Definition register_put_u32 (low high : Z) : Z := low + high * 65536.

(** ** Constants of the host platform

    [homeassistant.const] and [homeassistant.components.sensor] provide the
    units, state classes and device classes as named constants; they are
    kept as names here. *)

Inductive unit_of_measurement : Type :=
| PERCENTAGE
| TEMP_CELSIUS
| LIGHT_LUX
| CONCENTRATION_PARTS_PER_MILLION
| CONCENTRATION_MICROGRAMS_PER_CUBIC_METER
| CONCENTRATION_PARTS_PER_BILLION
| POWER_WATT
| ENERGY_WATT_HOUR
| ELECTRIC_POTENTIAL_VOLT
| ELECTRIC_CURRENT_AMPERE
| FREQUENCY_HERTZ.

Inductive state_class : Type :=
| STATE_CLASS_MEASUREMENT
| STATE_CLASS_TOTAL
| STATE_CLASS_TOTAL_INCREASING.

Module SensorDeviceClass.
Inductive t : Type :=
| HUMIDITY
| TEMPERATURE
| ILLUMINANCE
| CO2
| PM25
| PM10
| VOLATILE_ORGANIC_COMPOUNDS
| POWER
| ENERGY
| VOLTAGE
| CURRENT
| POWER_FACTOR
| FREQUENCY.

(** The enumeration is a string enumeration: formatting a member inside
    an f-string gives its value. *)
Definition str (c : t) : string :=
  match c with
  | HUMIDITY => "humidity"
  | TEMPERATURE => "temperature"
  | ILLUMINANCE => "illuminance"
  | CO2 => "carbon_dioxide"
  | PM25 => "pm25"
  | PM10 => "pm10"
  | VOLATILE_ORGANIC_COMPOUNDS => "volatile_organic_compounds"
  | POWER => "power"
  | ENERGY => "energy"
  | VOLTAGE => "voltage"
  | CURRENT => "current"
  | POWER_FACTOR => "power_factor"
  | FREQUENCY => "frequency"
  end.
End SensorDeviceClass.

(** A [value_handler]: a lambda from the register list to a number. *)
Definition handler : Type := list Z -> result pyval.

(** [d[k]] on a dict. *)
Definition dict_get {V : Type} (d : gmap string V) (k : string) : result V :=
  match d !! k with
  | Some v => Ok v
  | None => Raise KeyError
  end.

(** ** The AQM table

    Each entry of [AQM_GENERIC_SENSOR_DEFINE] is a dict literal with the same
    five string keys; it is a record here, one field per key. *)

Module AqmConf.
Record t : Type := mk {
  uom : unit_of_measurement;
  value_handler : handler;
  device_class : SensorDeviceClass.t;
  state_class : state_class;
  sub_id : string
}.
End AqmConf.

Definition AQM_GENERIC_SENSOR_DEFINE : gmap string AqmConf.t :=
  list_to_map [
    ("humidity", {|
       AqmConf.uom := PERCENTAGE;
       AqmConf.value_handler := fun r =>
         (x <- getitem r 1 ;; q <- int_truediv x 10 ;;
          y <- float_round q 1 ;; Ok (VFloat y));
       AqmConf.device_class := SensorDeviceClass.HUMIDITY;
       AqmConf.state_class := STATE_CLASS_MEASUREMENT;
       AqmConf.sub_id := "humidity" |});
    ("temperature", {|
       AqmConf.uom := TEMP_CELSIUS;
       AqmConf.value_handler := fun r =>
         (x <- getitem r 0 ;; q <- int_truediv x 10 ;;
          y <- float_round q 1 ;; Ok (VFloat y));
       AqmConf.device_class := SensorDeviceClass.TEMPERATURE;
       AqmConf.state_class := STATE_CLASS_MEASUREMENT;
       AqmConf.sub_id := "temperature" |});
    ("illuminance", {|
       AqmConf.uom := LIGHT_LUX;
       AqmConf.value_handler := fun r => (x <- getitem r 6 ;; Ok (VInt x));
       AqmConf.device_class := SensorDeviceClass.ILLUMINANCE;
       AqmConf.state_class := STATE_CLASS_MEASUREMENT;
       AqmConf.sub_id := "illuminance" |});
    ("co2", {|
       AqmConf.uom := CONCENTRATION_PARTS_PER_MILLION;
       AqmConf.value_handler := fun r => (x <- getitem r 2 ;; Ok (VInt x));
       AqmConf.device_class := SensorDeviceClass.CO2;
       AqmConf.state_class := STATE_CLASS_MEASUREMENT;
       AqmConf.sub_id := "co2" |});
    ("pm25", {|
       AqmConf.uom := CONCENTRATION_MICROGRAMS_PER_CUBIC_METER;
       AqmConf.value_handler := fun r => (x <- getitem r 3 ;; Ok (VInt x));
       AqmConf.device_class := SensorDeviceClass.PM25;
       AqmConf.state_class := STATE_CLASS_MEASUREMENT;
       AqmConf.sub_id := "pm25" |});
    ("pm10", {|
       AqmConf.uom := CONCENTRATION_MICROGRAMS_PER_CUBIC_METER;
       AqmConf.value_handler := fun r => (x <- getitem r 4 ;; Ok (VInt x));
       AqmConf.device_class := SensorDeviceClass.PM10;
       AqmConf.state_class := STATE_CLASS_MEASUREMENT;
       AqmConf.sub_id := "pm10" |});
    ("tvoc", {|
       AqmConf.uom := CONCENTRATION_PARTS_PER_BILLION;
       AqmConf.value_handler := fun r => (x <- getitem r 5 ;; Ok (VInt x));
       AqmConf.device_class := SensorDeviceClass.VOLATILE_ORGANIC_COMPOUNDS;
       AqmConf.state_class := STATE_CLASS_MEASUREMENT;
       AqmConf.sub_id := "tvoc" |})
  ].

(** ** The PMM table *)

Definition PMM_KEY_POWER : string := "power".
Definition PMM_KEY_THIS_MONTH_ENERGY : string := "this_month_energy".
Definition PMM_KEY_THIS_DAY_ENERGY : string := "this_day_energy".
Definition PMM_KEY_TOTAL : string := "total_energy".
Definition PMM_KEY_VOLTAGE : string := "voltage".
Definition PMM_KEY_CURRENT : string := "current".
Definition PMM_KEY_POWER_FACTOR : string := "power_factor".
Definition PMM_KEY_FREQUENCY : string := "frequency".
Definition PMM_KEY_THIS_HOUR_ENERGY : string := "this_hour_energy".
Definition PMM_KEY_BEFORE_HOUR_ENERGY : string := "before_hour_energy".
Definition PMM_KEY_YESTERDAY_ENERGY : string := "yesterday_energy".
Definition PMM_KEY_LAST_MONTH_ENERGY : string := "last_month_energy".
Definition PMM_KEY_TWO_MONTHS_AGO_ENERGY : string := "two_months_ago_energy".
Definition PMM_KEY_THIS_MONTH_FORECAST_ENERGY : string :=
  "this_month_forecast_energy".

Module PmmConfig.
Record t : Type := mk {
  nuom : unit_of_measurement;
  value_handler : handler;
  device_class : SensorDeviceClass.t;
  state_class : state_class;
  sub_id : string
}.
End PmmConfig.

Definition PMM_GENERIC_SENSOR_DEFINE : gmap string PmmConfig.t :=
  list_to_map [
    (PMM_KEY_POWER,
     PmmConfig.mk POWER_WATT
       (fun r => (x <- getitem r 2 ;; Ok (VInt x)))
       SensorDeviceClass.POWER STATE_CLASS_MEASUREMENT PMM_KEY_POWER);
    (PMM_KEY_THIS_MONTH_ENERGY,
     PmmConfig.mk ENERGY_WATT_HOUR
       (fun r => (x <- getitem r 10 ;; Ok (VInt (x * 10))))
       SensorDeviceClass.ENERGY STATE_CLASS_TOTAL PMM_KEY_THIS_MONTH_ENERGY);
    (PMM_KEY_THIS_DAY_ENERGY,
     PmmConfig.mk ENERGY_WATT_HOUR
       (fun r => (x <- getitem r 8 ;; Ok (VInt (x * 10))))
       SensorDeviceClass.ENERGY STATE_CLASS_TOTAL PMM_KEY_THIS_DAY_ENERGY);
    (PMM_KEY_TOTAL,
     PmmConfig.mk ENERGY_WATT_HOUR
       (fun r => (a <- getitem r 40 ;; b <- getitem r 41 ;;
                  Ok (VInt (register_put_u32 a b))))
       SensorDeviceClass.ENERGY STATE_CLASS_TOTAL_INCREASING PMM_KEY_TOTAL);
    (PMM_KEY_VOLTAGE,
     PmmConfig.mk ELECTRIC_POTENTIAL_VOLT
       (fun r => (x <- getitem r 0 ;; q <- int_truediv x 10 ;; Ok (VFloat q)))
       SensorDeviceClass.VOLTAGE STATE_CLASS_MEASUREMENT PMM_KEY_VOLTAGE);
    (PMM_KEY_CURRENT,
     PmmConfig.mk ELECTRIC_CURRENT_AMPERE
       (fun r => (x <- getitem r 1 ;; q <- int_truediv x 100 ;; Ok (VFloat q)))
       SensorDeviceClass.CURRENT STATE_CLASS_MEASUREMENT PMM_KEY_CURRENT);
    (PMM_KEY_POWER_FACTOR,
     PmmConfig.mk PERCENTAGE
       (fun r => (x <- getitem r 3 ;; q <- int_truediv x 10 ;; Ok (VFloat q)))
       SensorDeviceClass.POWER_FACTOR STATE_CLASS_MEASUREMENT
       PMM_KEY_POWER_FACTOR);
    (PMM_KEY_FREQUENCY,
     PmmConfig.mk FREQUENCY_HERTZ
       (fun r => (x <- getitem r 4 ;; q <- int_truediv x 10 ;; Ok (VFloat q)))
       SensorDeviceClass.FREQUENCY STATE_CLASS_MEASUREMENT PMM_KEY_FREQUENCY);
    (PMM_KEY_THIS_HOUR_ENERGY,
     PmmConfig.mk ENERGY_WATT_HOUR
       (fun r => (a <- getitem r 6 ;; b <- getitem r 16 ;;
                  Ok (VInt (a * 10 + b))))
       SensorDeviceClass.ENERGY STATE_CLASS_TOTAL PMM_KEY_THIS_HOUR_ENERGY);
    (PMM_KEY_BEFORE_HOUR_ENERGY,
     PmmConfig.mk ENERGY_WATT_HOUR
       (fun r => (x <- getitem r 7 ;; Ok (VInt (x * 10))))
       SensorDeviceClass.ENERGY STATE_CLASS_TOTAL PMM_KEY_BEFORE_HOUR_ENERGY);
    (PMM_KEY_YESTERDAY_ENERGY,
     PmmConfig.mk ENERGY_WATT_HOUR
       (fun r => (x <- getitem r 9 ;; Ok (VInt (x * 10))))
       SensorDeviceClass.ENERGY STATE_CLASS_TOTAL PMM_KEY_YESTERDAY_ENERGY);
    (PMM_KEY_LAST_MONTH_ENERGY,
     PmmConfig.mk ENERGY_WATT_HOUR
       (fun r => (x <- getitem r 11 ;; Ok (VInt (x * 10))))
       SensorDeviceClass.ENERGY STATE_CLASS_TOTAL PMM_KEY_LAST_MONTH_ENERGY);
    (PMM_KEY_TWO_MONTHS_AGO_ENERGY,
     PmmConfig.mk ENERGY_WATT_HOUR
       (fun r => (x <- getitem r 12 ;; Ok (VInt (x * 10))))
       SensorDeviceClass.ENERGY STATE_CLASS_TOTAL
       PMM_KEY_TWO_MONTHS_AGO_ENERGY);
    (PMM_KEY_THIS_MONTH_FORECAST_ENERGY,
     PmmConfig.mk ENERGY_WATT_HOUR
       (fun r => (x <- getitem r 13 ;; Ok (VInt (x * 10))))
       SensorDeviceClass.ENERGY STATE_CLASS_TOTAL
       PMM_KEY_THIS_MONTH_FORECAST_ENERGY)
  ].

(** ** Objects

    A config entry carries its [data] dict; its values are strings or ints. *)

Inductive conf_val : Type :=
| CStr (s : string)
| CInt (z : Z).

(** [str(v)], as an f-string formats a value. *)
Definition str_of (v : conf_val) : string :=
  match v with
  | CStr s => s
  | CInt z => pretty z
  end.

(** [v == s] for a string literal [s]. *)
Definition eq_str (v : conf_val) (s : string) : bool :=
  match v with
  | CStr s' => bool_decide (s' = s)
  | CInt _ => false
  end.

Record ConfigEntry : Type := {
  entry_id : string;
  data : gmap string conf_val
}.

(** [Device]: the identity and the static description of a device (the
    callback set and the event loop play no part in the sensor platform). *)
Module Device.
Record t : Type := mk {
  _id : string;
  _name : string;
  firmware_version : string;
  model : string;
  manufacturer : string
}.

Definition init (name : string) (config : ConfigEntry) : t :=
  {| _id := name +:+ "_" +:+ entry_id config;
     _name := name;
     firmware_version := "2.03";
     model := "PMM300";
     manufacturer := "sihas" |}.
End Device.

(** [SihasProxy] with the attributes its subclasses [Pmm300] and [Aqm300]
    add ([name], and [_device] for [Pmm300] only). *)
Module SihasProxy.
Record t : Type := mk {
  ip : conf_val;
  mac : conf_val;
  device_type : conf_val;
  config : conf_val;
  name : option string;
  _device : option Device.t;
  registers : list Z;
  _attr_available : bool
}.
End SihasProxy.

(** [PmmVirtualSensor] and [AqmVirtualSensor] have the same attributes but
    for [_device] and [_name], which only the former sets.  [_proxy] is a
    reference to a proxy object of the store. *)
Module SensorEntity.
Record t : Type := mk {
  _proxy : nat;
  _device : option Device.t;
  _attr_available : bool;
  _attr_unique_id : string;
  _attr_native_unit_of_measurement : unit_of_measurement;
  _attr_name : string;
  _attr_device_class : SensorDeviceClass.t;
  _attr_state_class : state_class;
  _name : option string;
  value_handler : handler;
  _attr_native_value : option pyval
}.

Definition set_attr_native_value (v : pyval) (e : t) : t :=
  mk (_proxy e) (_device e) (_attr_available e) (_attr_unique_id e)
     (_attr_native_unit_of_measurement e) (_attr_name e)
     (_attr_device_class e) (_attr_state_class e) (_name e)
     (value_handler e) (Some v).

Definition set_attr_available (b : bool) (e : t) : t :=
  mk (_proxy e) (_device e) b (_attr_unique_id e)
     (_attr_native_unit_of_measurement e) (_attr_name e)
     (_attr_device_class e) (_attr_state_class e) (_name e)
     (value_handler e) (_attr_native_value e).
End SensorEntity.

(** ** The store

    Proxies are shared by the entities of one device and mutated by every
    refresh, so objects live in a store and are referred to by position. *)

Record Store : Type := mkStore {
  proxies : list SihasProxy.t;
  entities : list SensorEntity.t
}.

Definition M (A : Type) : Type := Store -> result A * Store.

Definition ret {A : Type} (a : A) : M A := fun st => (Ok a, st).

Definition lift {A : Type} (r : result A) : M A := fun st => (r, st).

Definition bindM {A B : Type} (m : M A) (k : A -> M B) : M B :=
  fun st =>
    match m st with
    | (Ok a, st') => k a st'
    | (Raise e, st') => (Raise e, st')
    end.

Notation "x <~ m ;; k" := (bindM m (fun x => k))
  (at level 100, m at next level, right associativity) : py_scope.

Fixpoint traverse {A B : Type} (f : A -> M B) (l : list A) : M (list B) :=
  match l with
  | [] => ret []
  | a :: l' => b <~ f a ;; bs <~ traverse f l' ;; ret (b :: bs)
  end.

(** Dereferencing: a reference that denotes no object of the store is
    reported as [KeyError]; the stores built by [async_setup_entry] have no
    such reference. *)
Definition get_proxy (pid : nat) : M SihasProxy.t :=
  fun st => (match proxies st !! pid with
             | Some p => Ok p
             | None => Raise KeyError
             end, st).

Definition get_entity (eid : nat) : M SensorEntity.t :=
  fun st => (match entities st !! eid with
             | Some e => Ok e
             | None => Raise KeyError
             end, st).

Definition modify_proxy (pid : nat) (f : SihasProxy.t -> SihasProxy.t) : M unit :=
  p <~ get_proxy pid ;;
  fun st => (Ok tt, mkStore (<[pid := f p]> (proxies st)) (entities st)).

Definition modify_entity (eid : nat) (f : SensorEntity.t -> SensorEntity.t)
  : M unit :=
  e <~ get_entity eid ;;
  fun st => (Ok tt, mkStore (proxies st) (<[eid := f e]> (entities st))).

Definition new_proxy (p : SihasProxy.t) : M nat :=
  fun st => (Ok (length (proxies st)), mkStore (proxies st ++ [p]) (entities st)).

(** [async_add_entities]: the platform takes the entities over. *)
Definition async_add_entities (es : list SensorEntity.t) : M unit :=
  fun st => (Ok tt, mkStore (proxies st) (entities st ++ es)).

(** ** The sensor platform

    [sihas_base.py] and [const.py] are not part of the sources at hand: the
    constructor and the [update] method of [SihasProxy] (the poll of the
    device, which sets [registers] and [_attr_available]) and the keys of
    the entry data are parameters of the platform. *)

Section Platform.

Variable SihasProxy_init :
  conf_val -> conf_val -> conf_val -> conf_val -> SihasProxy.t.
Variable SihasProxy_poll : SihasProxy.t -> SihasProxy.t.
Variables CONF_TYPE CONF_IP CONF_MAC CONF_CFG : string.

(** [proxy.update()] on the proxy object [pid]. *)
Definition SihasProxy_update (pid : nat) : M unit :=
  modify_proxy pid SihasProxy_poll.

Definition Pmm300_init (device : Device.t) (ip mac device_type config : conf_val)
    (name : option string) : M nat :=
  let p := SihasProxy_init ip mac device_type config in
  new_proxy (SihasProxy.mk (SihasProxy.ip p) (SihasProxy.mac p)
               (SihasProxy.device_type p) (SihasProxy.config p)
               name (Some device)
               (SihasProxy.registers p) (SihasProxy._attr_available p)).

Definition Aqm300_init (ip mac device_type config : conf_val)
    (name : option string) : M nat :=
  let p := SihasProxy_init ip mac device_type config in
  new_proxy (SihasProxy.mk (SihasProxy.ip p) (SihasProxy.mac p)
               (SihasProxy.device_type p) (SihasProxy.config p)
               name (SihasProxy._device p)
               (SihasProxy.registers p) (SihasProxy._attr_available p)).

(** Truth value of [proxy.name]: [None] and the empty string are false. *)
Definition name_or (name : option string) (sub_id : string) (default : string)
  : string :=
  match name with
  | Some (String c s) => String c s +:+ " #" +:+ sub_id
  | _ => default
  end.

Definition PmmVirtualSensor_init (proxy : nat) (conf : PmmConfig.t)
  : M SensorEntity.t :=
  p <~ get_proxy proxy ;;
  let unique_id :=
    str_of (SihasProxy.device_type p) +:+ "-" +:+ str_of (SihasProxy.mac p)
      +:+ "-" +:+ PmmConfig.sub_id conf in
  ret {| SensorEntity._proxy := proxy;
         SensorEntity._device := SihasProxy._device p;
         SensorEntity._attr_available := SihasProxy._attr_available p;
         SensorEntity._attr_unique_id := unique_id;
         SensorEntity._attr_native_unit_of_measurement := PmmConfig.nuom conf;
         SensorEntity._attr_name :=
           name_or (SihasProxy.name p) (PmmConfig.sub_id conf) unique_id;
         SensorEntity._attr_device_class := PmmConfig.device_class conf;
         SensorEntity._attr_state_class := PmmConfig.state_class conf;
         SensorEntity._name := Some (PmmConfig.sub_id conf);
         SensorEntity.value_handler := PmmConfig.value_handler conf;
         SensorEntity._attr_native_value := None |}.

Definition AqmVirtualSensor_init (proxy : nat) (conf : AqmConf.t)
  : M SensorEntity.t :=
  p <~ get_proxy proxy ;;
  let unique_id :=
    str_of (SihasProxy.device_type p) +:+ "-" +:+ str_of (SihasProxy.mac p)
      +:+ "-" +:+ SensorDeviceClass.str (AqmConf.device_class conf) in
  ret {| SensorEntity._proxy := proxy;
         SensorEntity._device := None;
         SensorEntity._attr_available := SihasProxy._attr_available p;
         SensorEntity._attr_unique_id := unique_id;
         SensorEntity._attr_native_unit_of_measurement := AqmConf.uom conf;
         SensorEntity._attr_name :=
           name_or (SihasProxy.name p) (AqmConf.sub_id conf) unique_id;
         SensorEntity._attr_device_class := AqmConf.device_class conf;
         SensorEntity._attr_state_class := AqmConf.state_class conf;
         SensorEntity._name := None;
         SensorEntity.value_handler := AqmConf.value_handler conf;
         SensorEntity._attr_native_value := None |}.

(** [PmmVirtualSensor.update]. *)
Definition PmmVirtualSensor_update (self : nat) : M unit :=
  e <~ get_entity self ;;
  _ <~ SihasProxy_update (SensorEntity._proxy e) ;;
  p <~ get_proxy (SensorEntity._proxy e) ;;
  v <~ lift (SensorEntity.value_handler e (SihasProxy.registers p)) ;;
  _ <~ modify_entity self (SensorEntity.set_attr_native_value v) ;;
  p' <~ get_proxy (SensorEntity._proxy e) ;;
  modify_entity self
    (SensorEntity.set_attr_available (SihasProxy._attr_available p')).

(** [AqmVirtualSensor.update]. *)
Definition AqmVirtualSensor_update (self : nat) : M unit :=
  e <~ get_entity self ;;
  _ <~ SihasProxy_update (SensorEntity._proxy e) ;;
  p <~ get_proxy (SensorEntity._proxy e) ;;
  v <~ lift (SensorEntity.value_handler e (SihasProxy.registers p)) ;;
  _ <~ modify_entity self (SensorEntity.set_attr_native_value v) ;;
  p' <~ get_proxy (SensorEntity._proxy e) ;;
  modify_entity self
    (SensorEntity.set_attr_available (SihasProxy._attr_available p')).

Definition Pmm300_get_sub_entities (self : nat) : M (list SensorEntity.t) :=
  traverse (fun key =>
          conf <~ lift (dict_get PMM_GENERIC_SENSOR_DEFINE key) ;;
          PmmVirtualSensor_init self conf)
    [ PMM_KEY_POWER;
      PMM_KEY_THIS_MONTH_ENERGY;
      PMM_KEY_THIS_DAY_ENERGY;
      PMM_KEY_TOTAL;
      PMM_KEY_VOLTAGE;
      PMM_KEY_CURRENT;
      PMM_KEY_POWER_FACTOR;
      PMM_KEY_FREQUENCY;
      PMM_KEY_THIS_HOUR_ENERGY;
      PMM_KEY_BEFORE_HOUR_ENERGY;
      PMM_KEY_YESTERDAY_ENERGY;
      PMM_KEY_LAST_MONTH_ENERGY;
      PMM_KEY_TWO_MONTHS_AGO_ENERGY;
      PMM_KEY_THIS_MONTH_FORECAST_ENERGY ].

Definition Aqm300_get_sub_entities (self : nat) : M (list SensorEntity.t) :=
  traverse (fun key =>
          conf <~ lift (dict_get AQM_GENERIC_SENSOR_DEFINE key) ;;
          AqmVirtualSensor_init self conf)
    [ "co2"; "pm25"; "pm10"; "tvoc"; "humidity"; "illuminance";
      "temperature" ]%string.

Definition async_setup_entry (entry : ConfigEntry) : M unit :=
  t <~ lift (dict_get (data entry) CONF_TYPE) ;;
  if eq_str t "PMM" then
    let device := Device.init "PMM300" entry in
    ip <~ lift (dict_get (data entry) CONF_IP) ;;
    mac <~ lift (dict_get (data entry) CONF_MAC) ;;
    device_type <~ lift (dict_get (data entry) CONF_TYPE) ;;
    config <~ lift (dict_get (data entry) CONF_CFG) ;;
    pmm <~ Pmm300_init device ip mac device_type config None ;;
    es <~ Pmm300_get_sub_entities pmm ;;
    async_add_entities es
  else
    t' <~ lift (dict_get (data entry) CONF_TYPE) ;;
    if eq_str t' "AQM" then
      ip <~ lift (dict_get (data entry) CONF_IP) ;;
      mac <~ lift (dict_get (data entry) CONF_MAC) ;;
      device_type <~ lift (dict_get (data entry) CONF_TYPE) ;;
      config <~ lift (dict_get (data entry) CONF_CFG) ;;
      aqm <~ Aqm300_init ip mac device_type config None ;;
      es <~ Aqm300_get_sub_entities aqm ;;
      async_add_entities es
    else
      ret tt.

End Platform.

(** [entity.update()] dispatches on the class of the entity. *)
Inductive sensor_class : Type :=
| PmmVirtualSensor
| AqmVirtualSensor.

Definition update (cls : sensor_class)
    (SihasProxy_poll : SihasProxy.t -> SihasProxy.t) (self : nat) : M unit :=
  match cls with
  | PmmVirtualSensor => PmmVirtualSensor_update SihasProxy_poll self
  | AqmVirtualSensor => AqmVirtualSensor_update SihasProxy_poll self
  end.

(** ** Reading the tables *)

(** [AQM_GENERIC_SENSOR_DEFINE[key]["value_handler"](r)]. *)
Definition AQM_handler (key : string) : handler :=
  fun r => (conf <- dict_get AQM_GENERIC_SENSOR_DEFINE key ;;
            AqmConf.value_handler conf r).

(** [PMM_GENERIC_SENSOR_DEFINE[key].value_handler(r)]. *)
Definition PMM_handler (key : string) : handler :=
  fun r => (conf <- dict_get PMM_GENERIC_SENSOR_DEFINE key ;;
            PmmConfig.value_handler conf r).

(** The handlers that occur in a table. *)
Definition AQM_rule (h : handler) : Prop :=
  exists key conf,
    AQM_GENERIC_SENSOR_DEFINE !! key = Some conf /\
    h = AqmConf.value_handler conf.

Definition PMM_rule (h : handler) : Prop :=
  exists key conf,
    PMM_GENERIC_SENSOR_DEFINE !! key = Some conf /\
    h = PmmConfig.value_handler conf.

(** The handlers that divide one register by a power of ten, each with the
    index of its register and the exponent. *)
Definition scale_rules : list (handler * nat * Z) :=
  [ (AQM_handler "temperature", 0%nat, 1);
    (AQM_handler "humidity", 1%nat, 1);
    (PMM_handler PMM_KEY_VOLTAGE, 0%nat, 1);
    (PMM_handler PMM_KEY_CURRENT, 1%nat, 2);
    (PMM_handler PMM_KEY_POWER_FACTOR, 3%nat, 1);
    (PMM_handler PMM_KEY_FREQUENCY, 4%nat, 1) ].

(** A register holds an unsigned 16-bit word. *)
Definition u16 (x : Z) : Prop := 0 <= x <= 65535.

(** ** Decimal reading of a float *)

#[global] Instance spec_float_eq_dec : EqDecision spec_float.
Proof. solve_decision. Defined.

#[global] Instance exn_eq_dec : EqDecision exn.
Proof. solve_decision. Defined.

#[global] Instance result_eq_dec {A : Type} `{EqDecision A} :
  EqDecision (result A).
Proof. solve_decision. Defined.

(** The value of [y] in units of [10^-k], rounded to the nearest integer
    (ties to even); [None] for a NaN or an infinity. *)
Definition float_digits (y : spec_float) (k : Z) : option Z :=
  match y with
  | S754_zero _ => Some 0
  | S754_finite s m e =>
      Some (if s then - decimal_digits m e k else decimal_digits m e k)
  | _ => None
  end.

(** ** A sample installation

    One AQM device whose proxy starts with a seven-register snapshot, and a
    few behaviours of the poll. *)

Definition sample_init (ip mac device_type config : conf_val) : SihasProxy.t :=
  SihasProxy.mk ip mac device_type config None None
    [215; 455; 612; 12; 20; 31; 300] true.

Definition polled (regs : list Z) (available : bool) (p : SihasProxy.t)
  : SihasProxy.t :=
  SihasProxy.mk (SihasProxy.ip p) (SihasProxy.mac p) (SihasProxy.device_type p)
    (SihasProxy.config p) (SihasProxy.name p) (SihasProxy._device p)
    regs available.

(** The device answers with the same registers. *)
Definition poll_steady (p : SihasProxy.t) : SihasProxy.t :=
  polled (SihasProxy.registers p) true p.

(** The device is unreachable: the last snapshot stays in place. *)
Definition poll_unreachable (p : SihasProxy.t) : SihasProxy.t :=
  polled (SihasProxy.registers p) false p.

(** The device is unreachable and the snapshot is empty. *)
Definition poll_unreachable_empty (p : SihasProxy.t) : SihasProxy.t :=
  polled [] false p.

(** The device answers with a single register. *)
Definition poll_short (p : SihasProxy.t) : SihasProxy.t :=
  polled [215] true p.

Definition sample_entry (device_type : string) : ConfigEntry :=
  {| entry_id := "entry-1";
     data := list_to_map [ ("type", CStr device_type);
                           ("ip", CStr "192.168.0.20");
                           ("mac", CStr "a8:2b:d6:00:00:01");
                           ("cfg", CInt 0) ] |}.

Definition empty_store : Store := mkStore [] [].

Definition sample_setup (device_type : string) : result unit * Store :=
  async_setup_entry sample_init "type" "ip" "mac" "cfg"
    (sample_entry device_type) empty_store.

(** The store after the AQM entry is set up: proxy 0 and the seven
    entities, humidity at position 4 and temperature at position 6. *)
Definition sample_store : Store := snd (sample_setup "AQM").

(** A 42-register PMM snapshot with the lifetime total in its last two
    registers. *)
Definition sample_pmm_registers : list Z :=
  [2200; 150; 500; 98; 600; 0; 12; 30; 410; 390] ++
  replicate 30 0 ++ [1000; 2].

(** The float [45.5], exactly [91 * 2^-1]. *)
Definition float_45_5 : spec_float := binary_normalize prec emax 91 (-1) false.

(** The proxy and the humidity entity of the sample store. *)
Definition sample_proxy : SihasProxy.t :=
  SihasProxy.mk (CStr "192.168.0.20") (CStr "a8:2b:d6:00:00:01") (CStr "AQM")
    (CInt 0) None None [215; 455; 612; 12; 20; 31; 300] true.

Definition sample_humidity : SensorEntity.t :=
  {| SensorEntity._proxy := 0;
     SensorEntity._device := None;
     SensorEntity._attr_available := true;
     SensorEntity._attr_unique_id := "AQM-a8:2b:d6:00:00:01-humidity";
     SensorEntity._attr_native_unit_of_measurement := PERCENTAGE;
     SensorEntity._attr_name := "AQM-a8:2b:d6:00:00:01-humidity";
     SensorEntity._attr_device_class := SensorDeviceClass.HUMIDITY;
     SensorEntity._attr_state_class := STATE_CLASS_MEASUREMENT;
     SensorEntity._name := None;
     SensorEntity.value_handler := AQM_handler "humidity";
     SensorEntity._attr_native_value := None |}.

(** The store after the poll of proxy [pid] alone. *)
Definition polled_store (poll : SihasProxy.t -> SihasProxy.t) (st : Store)
    (pid : nat) (p : SihasProxy.t) : Store :=
  mkStore (<[pid := poll p]> (proxies st)) (entities st).

(** The entity after both assignments of [update]. *)
Definition refreshed (e : SensorEntity.t) (v : pyval) (available : bool)
  : SensorEntity.t :=
  SensorEntity.set_attr_available available
    (SensorEntity.set_attr_native_value v e).

(** The identifier [AqmVirtualSensor.__init__] builds, as a function of
    the device class. *)
Definition aqm_unique_id (p : SihasProxy.t) (c : SensorDeviceClass.t) : string :=
  str_of (SihasProxy.device_type p) +:+ "-" +:+ str_of (SihasProxy.mac p)
    +:+ "-" +:+ SensorDeviceClass.str c.

(** ** The rules on the list object

    [update] hands the list object [self._proxy.registers] itself to the
    handler, not a copy: inside a lambda of a table, [r] refers to the
    register list of a proxy of the store and [r[i]] reads the store.  The
    lambdas of the two tables are written out here as Python runs them, as
    computations on the store; their argument is the position of the
    proxy whose register list they are given. *)

(** [r[i]] on the register list of the proxy [r]. *)
Definition getitem_ref (r : nat) (i : nat) : M Z :=
  p <~ get_proxy r ;; lift (getitem (SihasProxy.registers p) i).

(** The [value_handler] lambdas of [AQM_GENERIC_SENSOR_DEFINE]. *)
Definition AQM_lambdas : gmap string (nat -> M pyval) :=
  list_to_map [
    ("humidity", fun r =>
       x <~ getitem_ref r 1 ;; q <~ lift (int_truediv x 10) ;;
       y <~ lift (float_round q 1) ;; ret (VFloat y));
    ("temperature", fun r =>
       x <~ getitem_ref r 0 ;; q <~ lift (int_truediv x 10) ;;
       y <~ lift (float_round q 1) ;; ret (VFloat y));
    ("illuminance", fun r => x <~ getitem_ref r 6 ;; ret (VInt x));
    ("co2", fun r => x <~ getitem_ref r 2 ;; ret (VInt x));
    ("pm25", fun r => x <~ getitem_ref r 3 ;; ret (VInt x));
    ("pm10", fun r => x <~ getitem_ref r 4 ;; ret (VInt x));
    ("tvoc", fun r => x <~ getitem_ref r 5 ;; ret (VInt x))
  ].

(** The [value_handler] lambdas of [PMM_GENERIC_SENSOR_DEFINE]. *)
Definition PMM_lambdas : gmap string (nat -> M pyval) :=
  list_to_map [
    (PMM_KEY_POWER, fun r => x <~ getitem_ref r 2 ;; ret (VInt x));
    (PMM_KEY_THIS_MONTH_ENERGY, fun r =>
       x <~ getitem_ref r 10 ;; ret (VInt (x * 10)));
    (PMM_KEY_THIS_DAY_ENERGY, fun r =>
       x <~ getitem_ref r 8 ;; ret (VInt (x * 10)));
    (PMM_KEY_TOTAL, fun r =>
       a <~ getitem_ref r 40 ;; b <~ getitem_ref r 41 ;;
       ret (VInt (register_put_u32 a b)));
    (PMM_KEY_VOLTAGE, fun r =>
       x <~ getitem_ref r 0 ;; q <~ lift (int_truediv x 10) ;; ret (VFloat q));
    (PMM_KEY_CURRENT, fun r =>
       x <~ getitem_ref r 1 ;; q <~ lift (int_truediv x 100) ;; ret (VFloat q));
    (PMM_KEY_POWER_FACTOR, fun r =>
       x <~ getitem_ref r 3 ;; q <~ lift (int_truediv x 10) ;; ret (VFloat q));
    (PMM_KEY_FREQUENCY, fun r =>
       x <~ getitem_ref r 4 ;; q <~ lift (int_truediv x 10) ;; ret (VFloat q));
    (PMM_KEY_THIS_HOUR_ENERGY, fun r =>
       a <~ getitem_ref r 6 ;; b <~ getitem_ref r 16 ;;
       ret (VInt (a * 10 + b)));
    (PMM_KEY_BEFORE_HOUR_ENERGY, fun r =>
       x <~ getitem_ref r 7 ;; ret (VInt (x * 10)));
    (PMM_KEY_YESTERDAY_ENERGY, fun r =>
       x <~ getitem_ref r 9 ;; ret (VInt (x * 10)));
    (PMM_KEY_LAST_MONTH_ENERGY, fun r =>
       x <~ getitem_ref r 11 ;; ret (VInt (x * 10)));
    (PMM_KEY_TWO_MONTHS_AGO_ENERGY, fun r =>
       x <~ getitem_ref r 12 ;; ret (VInt (x * 10)));
    (PMM_KEY_THIS_MONTH_FORECAST_ENERGY, fun r =>
       x <~ getitem_ref r 13 ;; ret (VInt (x * 10)))
  ].

(** ** Further readings of the tables *)


(** The keys [Pmm300.get_sub_entities] looks up, in its order. *)
Definition PMM_keys : list string :=
  [ PMM_KEY_POWER; PMM_KEY_THIS_MONTH_ENERGY; PMM_KEY_THIS_DAY_ENERGY;
    PMM_KEY_TOTAL; PMM_KEY_VOLTAGE; PMM_KEY_CURRENT; PMM_KEY_POWER_FACTOR;
    PMM_KEY_FREQUENCY; PMM_KEY_THIS_HOUR_ENERGY; PMM_KEY_BEFORE_HOUR_ENERGY;
    PMM_KEY_YESTERDAY_ENERGY; PMM_KEY_LAST_MONTH_ENERGY;
    PMM_KEY_TWO_MONTHS_AGO_ENERGY; PMM_KEY_THIS_MONTH_FORECAST_ENERGY ].

(** The keys [Aqm300.get_sub_entities] looks up, in its order. *)
Definition AQM_keys : list string :=
  [ "co2"; "pm25"; "pm10"; "tvoc"; "humidity"; "illuminance"; "temperature" ].

(** The identifier [PmmVirtualSensor.__init__] builds, as a function of the
    [sub_id]. *)
Definition pmm_unique_id (p : SihasProxy.t) (sub_id : string) : string :=
  str_of (SihasProxy.device_type p) +:+ "-" +:+ str_of (SihasProxy.mac p)
    +:+ "-" +:+ sub_id.

(** ** The rest of [Device] and of [PmmVirtualSensor] *)

(** The properties [Device.name] and [Device.device_id]. *)
Definition Device_name (self : Device.t) : string := Device._name self.

Definition Device_device_id (self : Device.t) : string := Device._id self.

(** [Device._callbacks] is a set of callbacks; [register_callback] is
    [set.add] and [remove_callback] is [set.discard], which ignores a
    callback that is not in the set.  Callbacks are compared as the keys of
    the set. *)
Section Callbacks.
Context {K : Type} `{Countable K}.

Definition register_callback (callback : K) (_callbacks : gset K) : gset K :=
  {[ callback ]} ∪ _callbacks.

Definition remove_callback (callback : K) (_callbacks : gset K) : gset K :=
  _callbacks ∖ {[ callback ]}.

End Callbacks.

(** The property [PmmVirtualSensor.name]: [self._name], which
    [AqmVirtualSensor] does not set. *)
Definition PmmVirtualSensor_name (self : SensorEntity.t) : option string :=
  SensorEntity._name self.

(** The dict [PmmVirtualSensor.device_info] returns, one field per key. *)
Module DeviceInfo.
Record t : Type := mk {
  identifiers : gset (string * string);
  name : string;
  sw_version : string;
  model : string;
  manufacturer : string
}.
End DeviceInfo.

(** [PmmVirtualSensor.device_info]; there is no result when [_device] is not
    a [Device] (reading an attribute of [None] raises). *)
Definition PmmVirtualSensor_device_info (self : SensorEntity.t)
  : option DeviceInfo.t :=
  match SensorEntity._device self with
  | Some device =>
      Some {| DeviceInfo.identifiers := {[ ("PMM300"%string, Device_device_id device) ]};
              DeviceInfo.name := Device_name device;
              DeviceInfo.sw_version := Device.firmware_version device;
              DeviceInfo.model := Device.model device;
              DeviceInfo.manufacturer := Device.manufacturer device |}
  | None => None
  end.

(** ** Well-formed stores

    Every entity refers to a proxy of the store. *)
Definition store_wf (st : Store) : Prop :=
  Forall (fun e => (SensorEntity._proxy e < length (proxies st))%nat)
         (entities st).

(** The device class of each key of [AQM_GENERIC_SENSOR_DEFINE], in the
    order of [Aqm300.get_sub_entities]. *)
Definition AQM_key_class : list (string * SensorDeviceClass.t) :=
  [ ("co2", SensorDeviceClass.CO2); ("pm25", SensorDeviceClass.PM25);
    ("pm10", SensorDeviceClass.PM10);
    ("tvoc", SensorDeviceClass.VOLATILE_ORGANIC_COMPOUNDS);
    ("humidity", SensorDeviceClass.HUMIDITY);
    ("illuminance", SensorDeviceClass.ILLUMINANCE);
    ("temperature", SensorDeviceClass.TEMPERATURE) ]%string.

(** What [__init__] of either entity class leaves in the attributes that
    both classes set from the proxy: [uid] is the unique identifier and
    [sub_id] the [sub_id] of the table entry. *)
Definition fresh_entity (self : nat) (p : SihasProxy.t) (uid sub_id : string)
    (e : SensorEntity.t) : Prop :=
  SensorEntity._proxy e = self /\
  SensorEntity._attr_available e = SihasProxy._attr_available p /\
  SensorEntity._attr_native_value e = None /\
  SensorEntity._attr_unique_id e = uid /\
  SensorEntity._attr_name e = name_or (SihasProxy.name p) sub_id uid.

(** What [PmmVirtualSensor(proxy, PMM_GENERIC_SENSOR_DEFINE[key])] is, for
    the proxy object [p] at position [self]. *)
Definition pmm_entity_of (self : nat) (p : SihasProxy.t) (key : string)
    (e : SensorEntity.t) : Prop :=
  fresh_entity self p (pmm_unique_id p key) key e /\
  SensorEntity._device e = SihasProxy._device p /\
  SensorEntity._name e = Some key /\
  exists conf,
    PMM_GENERIC_SENSOR_DEFINE !! key = Some conf /\
    SensorEntity.value_handler e = PmmConfig.value_handler conf /\
    SensorEntity._attr_device_class e = PmmConfig.device_class conf /\
    SensorEntity._attr_state_class e = PmmConfig.state_class conf /\
    SensorEntity._attr_native_unit_of_measurement e = PmmConfig.nuom conf.

(** What [AqmVirtualSensor(proxy, AQM_GENERIC_SENSOR_DEFINE[key])] is. *)
Definition aqm_entity_of (self : nat) (p : SihasProxy.t) (key : string)
    (e : SensorEntity.t) : Prop :=
  fresh_entity self p
    (aqm_unique_id p (SensorEntity._attr_device_class e)) key e /\
  SensorEntity._device e = None /\
  SensorEntity._name e = None /\
  (key, SensorEntity._attr_device_class e) ∈ AQM_key_class /\
  exists conf,
    AQM_GENERIC_SENSOR_DEFINE !! key = Some conf /\
    SensorEntity.value_handler e = AqmConf.value_handler conf /\
    SensorEntity._attr_device_class e = AqmConf.device_class conf /\
    SensorEntity._attr_state_class e = AqmConf.state_class conf /\
    SensorEntity._attr_native_unit_of_measurement e = AqmConf.uom conf.

(** The proxy object the constructors of [Pmm300] and [Aqm300] leave: the
    one [SihasProxy.__init__] built, with [name] and [_device] set. *)
Definition with_name_device (p : SihasProxy.t) (name : option string)
    (device : option Device.t) : SihasProxy.t :=
  SihasProxy.mk (SihasProxy.ip p) (SihasProxy.mac p) (SihasProxy.device_type p)
    (SihasProxy.config p) name device
    (SihasProxy.registers p) (SihasProxy._attr_available p).

(** The description of the one device of the platform. *)
Definition PMM300_device_info (entry : ConfigEntry) : DeviceInfo.t :=
  {| DeviceInfo.identifiers :=
       {[ ("PMM300"%string, ("PMM300_" +:+ entry_id entry)%string) ]};
     DeviceInfo.name := "PMM300";
     DeviceInfo.sw_version := "2.03";
     DeviceInfo.model := "PMM300";
     DeviceInfo.manufacturer := "sihas" |}.

(** A PMM entry with the four keys ["type"], ["ip"], ["mac"] and ["cfg"]. *)
Definition sample_pmm_entry : ConfigEntry := sample_entry "PMM".

(** The first entity a PMM entry sets up, for the sample entry. *)
Definition sample_power : SensorEntity.t :=
  {| SensorEntity._proxy := 0;
     SensorEntity._device := Some (Device.init "PMM300" sample_pmm_entry);
     SensorEntity._attr_available := true;
     SensorEntity._attr_unique_id := "PMM-a8:2b:d6:00:00:01-power";
     SensorEntity._attr_native_unit_of_measurement := POWER_WATT;
     SensorEntity._attr_name := "PMM-a8:2b:d6:00:00:01-power";
     SensorEntity._attr_device_class := SensorDeviceClass.POWER;
     SensorEntity._attr_state_class := STATE_CLASS_MEASUREMENT;
     SensorEntity._name := Some PMM_KEY_POWER;
     SensorEntity.value_handler := PMM_handler PMM_KEY_POWER;
     SensorEntity._attr_native_value := None |}.

(** The temperature entity of the sample store. *)
Definition sample_temperature : SensorEntity.t :=
  {| SensorEntity._proxy := 0;
     SensorEntity._device := None;
     SensorEntity._attr_available := true;
     SensorEntity._attr_unique_id := "AQM-a8:2b:d6:00:00:01-temperature";
     SensorEntity._attr_native_unit_of_measurement := TEMP_CELSIUS;
     SensorEntity._attr_name := "AQM-a8:2b:d6:00:00:01-temperature";
     SensorEntity._attr_device_class := SensorDeviceClass.TEMPERATURE;
     SensorEntity._attr_state_class := STATE_CLASS_MEASUREMENT;
     SensorEntity._name := None;
     SensorEntity.value_handler := AQM_handler "temperature";
     SensorEntity._attr_native_value := None |}.

(** Two devices: the sample store after a second AQM entry is set up. *)
Definition two_device_store : Store :=
  snd (async_setup_entry sample_init "type" "ip" "mac" "cfg"
         (sample_entry "AQM") sample_store).

(** A second entry, with another identifier and no data. *)
Definition other_entry : ConfigEntry :=
  {| entry_id := "entry-2"; data := ∅ |}.

(** The first entity of the second device of [two_device_store]. *)
Definition second_co2 : SensorEntity.t :=
  {| SensorEntity._proxy := 1;
     SensorEntity._device := None;
     SensorEntity._attr_available := true;
     SensorEntity._attr_unique_id := "AQM-a8:2b:d6:00:00:01-carbon_dioxide";
     SensorEntity._attr_native_unit_of_measurement :=
       CONCENTRATION_PARTS_PER_MILLION;
     SensorEntity._attr_name := "AQM-a8:2b:d6:00:00:01-carbon_dioxide";
     SensorEntity._attr_device_class := SensorDeviceClass.CO2;
     SensorEntity._attr_state_class := STATE_CLASS_MEASUREMENT;
     SensorEntity._name := None;
     SensorEntity.value_handler := AQM_handler "co2";
     SensorEntity._attr_native_value := None |}.

(** A store with one proxy that has a name. *)
Definition named_proxy : SihasProxy.t :=
  with_name_device sample_proxy (Some "Living room"%string) None.

Definition named_store : Store := mkStore [named_proxy] [].

(** * Properties *)

Arguments int_truediv : simpl never.
Arguments float_round : simpl never.

(** ** The tables and their handlers *)

Lemma AQM_entries key conf :
  AQM_GENERIC_SENSOR_DEFINE !! key = Some conf ->
  AQM_handler key = AqmConf.value_handler conf /\
  key ∈ ["humidity"; "temperature"; "illuminance"; "co2"; "pm25"; "pm10"; "tvoc"]%string.
Proof.
  intros H. unfold AQM_handler, dict_get. rewrite H. split; [reflexivity|].
  unfold AQM_GENERIC_SENSOR_DEFINE in H.
  apply elem_of_list_to_map_2 in H.
  repeat (apply elem_of_cons in H as [H|H]; [injection H as -> _; set_solver|]).
  by apply elem_of_nil in H.
Qed.

Lemma getitem_Some r i x : r !! i = Some x -> getitem r i = Ok x.
Proof. unfold getitem. by intros ->. Qed.

Lemma getitem_lt r i : (i < length r)%nat -> exists x, r !! i = Some x /\ getitem r i = Ok x.
Proof.
  intros H. destruct (lookup_lt_is_Some_2 r i H) as [x Hx].
  exists x. split; [done|]. by apply getitem_Some.
Qed.



Ltac table_cases H :=
  apply elem_of_list_to_map_2 in H;
  repeat (apply elem_of_cons in H as [H|H];
          [injection H as -> ->|]);
  [..|by apply elem_of_nil in H].


(** Solves [NoDup l] for a list of distinct literals. *)
Ltac solve_NoDup :=
  repeat (apply NoDup_cons; split;
          [let Hin := fresh "Hin" in
           intros Hin;
           repeat (apply elem_of_cons in Hin as [Hin|Hin]; [discriminate Hin|]);
           by apply elem_of_nil in Hin|]);
  apply NoDup_nil_2.

Lemma AQM_keys_NoDup :
  NoDup ["humidity"; "temperature"; "illuminance"; "co2"; "pm25"; "pm10";
         "tvoc"]%string.
Proof.
  solve_NoDup.
Qed.

Lemma PMM_keys_NoDup :
  NoDup [PMM_KEY_POWER; PMM_KEY_THIS_MONTH_ENERGY; PMM_KEY_THIS_DAY_ENERGY;
         PMM_KEY_TOTAL; PMM_KEY_VOLTAGE; PMM_KEY_CURRENT;
         PMM_KEY_POWER_FACTOR; PMM_KEY_FREQUENCY; PMM_KEY_THIS_HOUR_ENERGY;
         PMM_KEY_BEFORE_HOUR_ENERGY; PMM_KEY_YESTERDAY_ENERGY;
         PMM_KEY_LAST_MONTH_ENERGY; PMM_KEY_TWO_MONTHS_AGO_ENERGY;
         PMM_KEY_THIS_MONTH_FORECAST_ENERGY].
Proof.
  solve_NoDup.
Qed.

(** Solves [TABLE !! key = Some ?conf] for a key of the table, finding the
    entry. *)
Ltac table_lookup :=
  unfold AQM_GENERIC_SENSOR_DEFINE, PMM_GENERIC_SENSOR_DEFINE,
    AQM_lambdas, PMM_lambdas;
  apply elem_of_list_to_map_1;
  [first [exact AQM_keys_NoDup|exact PMM_keys_NoDup]
  |repeat (apply elem_of_cons; first [left; reflexivity|right])].

Lemma digits2_pos_size p : digits2_pos p = Pos.size p.
Proof. induction p as [p IH|p IH|]; simpl; by rewrite ?IH. Qed.

Lemma Zdigits2_eq n z : 0 < n -> 2 ^ (n - 1) <= z < 2 ^ n -> Zdigits2 z = n.
Proof.
  intros Hn [Hlo Hhi].
  assert (0 < z) as Hz by (pose proof (Z.pow_pos_nonneg 2 (n - 1)); lia).
  destruct z as [|p|p]; try lia. simpl. rewrite digits2_pos_size.
  pose proof (Pos.size_gt p) as Hgt. pose proof (Pos.size_le p) as Hle.
  apply Pos2Z.pos_lt_pos in Hgt. apply Pos2Z.pos_le_pos in Hle.
  rewrite Pos2Z.inj_pow in Hgt, Hle. rewrite (Pos2Z.inj_xO p) in Hle.
  set (S := Z.pos (Pos.size p)) in *.
  assert (0 < S) as HS by (subst S; lia). clearbody S.
  destruct (Z.lt_trichotomy S n) as [Hlt|[Heq|Hgt']]; [|done|].
  - pose proof (Z.pow_le_mono_r 2 S (n - 1)). lia.
  - pose proof (Z.pow_le_mono_r 2 n (S - 1)).
    replace S with (Z.succ (S - 1)) in Hle by lia.
    rewrite Z.pow_succ_r in Hle by lia. lia.
Qed.

Lemma shr_record_of_loc_m m l : shr_m (shr_record_of_loc m l) = m.
Proof. by destruct l as [|[]]. Qed.

Lemma loc_of_shr_record_of_loc m l :
  loc_of_shr_record (shr_record_of_loc m l) = l.
Proof. by destruct l as [|[]]. Qed.

Lemma shr_1_m m l :
  0 < m ->
  2 * shr_m (shr_1 (shr_record_of_loc m l)) <= m
  <= 2 * shr_m (shr_1 (shr_record_of_loc m l)) + 1.
Proof.
  intros Hm. destruct m as [|p|p]; [lia| |lia].
  destruct l as [|[]]; destruct p as [p|p|]; cbn [shr_record_of_loc shr_1 shr_m]; lia.
Qed.

Lemma round_nearest_even_range m l :
  m <= round_nearest_even m l <= m + 1.
Proof. destruct l as [|[]]; simpl; try destruct (Z.even m); lia. Qed.

Lemma shr_fexp_53 m e l :
  2 ^ 52 <= m < 2 ^ 53 -> -1074 <= e ->
  shr_fexp prec emax m e l = (shr_record_of_loc m l, e).
Proof.
  intros Hm He. unfold shr_fexp. rewrite (Zdigits2_eq 53 m) by (simpl; lia).
  replace (fexp prec emax (53 + e) - e) with 0
    by (unfold fexp, emin, prec, emax; lia).
  reflexivity.
Qed.

Lemma shr_fexp_54 m e l :
  2 ^ 53 <= m < 2 ^ 54 -> -1074 <= e ->
  shr_fexp prec emax m e l = (shr_1 (shr_record_of_loc m l), e + 1).
Proof.
  intros Hm He. unfold shr_fexp. rewrite (Zdigits2_eq 54 m) by (simpl; lia).
  replace (fexp prec emax (54 + e) - e) with 1
    by (unfold fexp, emin, prec, emax; lia).
  reflexivity.
Qed.

(** Rounding a 53-bit mantissa and renormalising. *)
Lemma round_53 (s : bool) (m0 e : Z) (l : location) :
  2 ^ 52 <= m0 < 2 ^ 53 -> -1074 <= e <= 969 ->
  exists m e',
    (let '(mrs, e'') :=
       shr_fexp prec emax (round_nearest_even m0 l) e loc_Exact in
     match shr_m mrs with
     | Z0 => S754_zero s
     | Zpos m => if Z.leb e'' (emax - prec)
                 then S754_finite s m e'' else S754_infinity s
     | _ => S754_nan
     end) = S754_finite s m e' /\
    ((e' = e /\ m0 <= Z.pos m <= m0 + 1) \/
     (e' = e + 1 /\ 2 * Z.pos m = m0 + 1)).
Proof.
  intros Hm He.
  pose proof (round_nearest_even_range m0 l) as Hr.
  set (m1 := round_nearest_even m0 l) in *. clearbody m1.
  destruct (Z_lt_le_dec m1 (2 ^ 53)) as [Hlt|Hge].
  - rewrite shr_fexp_53 by lia. cbn [shr_record_of_loc shr_m].
    destruct m1 as [|p|p]; try lia.
    replace (e <=? emax - prec) with true
      by (symmetry; apply Z.leb_le; unfold emax, prec; lia).
    exists p, e. split; [done|]. left. lia.
  - assert (m1 = 2 ^ 53) as -> by lia.
    rewrite shr_fexp_54 by lia.
    change (shr_m (shr_1 (shr_record_of_loc (2 ^ 53) loc_Exact)))
      with (Z.pos (2 ^ 52)).
    replace (e + 1 <=? emax - prec) with true
      by (symmetry; apply Z.leb_le; unfold emax, prec; lia).
    exists (2 ^ 52)%positive, (e + 1). split; [done|]. right. lia.
Qed.

(** [binary_round_aux] on a quotient of 53 or 54 bits: the result is a
    finite float within two units of the last place of the quotient. *)
Lemma binary_round_aux_near (mz ez : Z) (lz : location) :
  2 ^ 52 <= mz < 2 ^ 54 -> -1074 <= ez <= 960 ->
  exists m e,
    binary_round_aux prec emax false mz ez lz = S754_finite false m e /\
    ((e = ez /\ mz <= Z.pos m <= mz + 1) \/
     (e = ez + 1 /\ mz - 1 <= 2 * Z.pos m <= mz + 2) \/
     (e = ez + 2 /\ mz - 1 <= 4 * Z.pos m <= mz + 3)).
Proof.
  intros Hm He. unfold binary_round_aux.
  destruct (Z_lt_le_dec mz (2 ^ 53)) as [Hlt|Hge].
  - rewrite shr_fexp_53 by lia.
    rewrite shr_record_of_loc_m, loc_of_shr_record_of_loc.
    destruct (round_53 false mz ez lz) as (m & e & -> & [[-> Hb]|[-> Hb]]);
      [lia|lia| |]; exists m; eexists; (split; [reflexivity|]); lia.
  - rewrite shr_fexp_54 by lia.
    pose proof (shr_1_m mz lz ltac:(lia)) as Hs.
    set (mrs := shr_1 (shr_record_of_loc mz lz)) in *. clearbody mrs.
    destruct (round_53 false (shr_m mrs) (ez + 1) (loc_of_shr_record mrs))
      as (m & e & -> & [[-> Hb]|[-> Hb]]);
      [lia|lia| |]; exists m; eexists; (split; [reflexivity|]); lia.
Qed.

Lemma div_half_even_near (n D x : Z) :
  0 < D -> - D < 2 * (n - x * D) < D -> div_half_even n D = x.
Proof.
  intros HD Hn. unfold div_half_even.
  destruct (Z_lt_le_dec n (x * D)) as [Hlt|Hge].
  - assert (n / D = x - 1) as Hq
      by (symmetry; apply Z.div_unique with (r := n - (x - 1) * D); lia).
    assert (n mod D = n - (x - 1) * D) as Hr
      by (symmetry; apply Z.mod_unique with (q := x - 1); lia).
    rewrite Hq, Hr.
    replace (2 * (n - (x - 1) * D) ?= D) with Gt
      by (symmetry; apply Z.compare_gt_iff; lia).
    lia.
  - assert (n / D = x) as Hq
      by (symmetry; apply Z.div_unique with (r := n - x * D); lia).
    assert (n mod D = n - x * D) as Hr
      by (symmetry; apply Z.mod_unique with (q := x); lia).
    rewrite Hq, Hr.
    replace (2 * (n - x * D) ?= D) with Lt
      by (symmetry; apply Z.compare_lt_iff; lia).
    done.
Qed.

(** The quotient of two positive integers of [n] and [dd] bits, as
    [SFdiv] computes it: a finite float within a few units of its last
    place of the exact quotient. *)
Lemma SFdiv_int_near (x d : positive) (n dd : Z) :
  1 <= n <= 16 -> 1 <= dd <= 16 ->
  2 ^ (n - 1) <= Z.pos x < 2 ^ n ->
  2 ^ (dd - 1) <= Z.pos d < 2 ^ dd ->
  exists m e D,
    SFdiv prec emax (S754_finite false x 0) (S754_finite false d 0)
    = S754_finite false m e /\
    e < 0 /\ D = 2 ^ (- e) /\
    - D < 2 * (Z.pos m * Z.pos d - Z.pos x * D) < D.
Proof.
  intros Hn Hdd Hx Hd.
  set (s := 53 + dd - n).
  assert (0 < s) as Hs by (subst s; lia).
  assert (2 ^ (n - 1) * 2 ^ s = 2 ^ 52 * 2 ^ dd) as E1
    by (rewrite <- !Z.pow_add_r by lia; f_equal; lia).
  assert (2 ^ n * 2 ^ s = 2 ^ 54 * 2 ^ (dd - 1)) as E2
    by (rewrite <- !Z.pow_add_r by lia; f_equal; lia).
  assert (2 ^ 36 * 2 ^ dd <= 2 ^ s) as E3.
  { rewrite <- Z.pow_add_r by lia. apply Z.pow_le_mono_r; lia. }
  assert (0 < 2 ^ s) as Hps by (apply Z.pow_pos_nonneg; lia).
  assert (0 < 2 ^ dd) as Hpd by (apply Z.pow_pos_nonneg; lia).
  assert (0 < 2 ^ (dd - 1)) as Hpd' by (apply Z.pow_pos_nonneg; lia).
  assert (0 < 2 ^ (n - 1)) as Hpn by (apply Z.pow_pos_nonneg; lia).
  set (q := (Z.pos x * 2 ^ s) / Z.pos d).
  assert (Z.pos d * q <= Z.pos x * 2 ^ s < Z.pos d * q + Z.pos d) as Hq.
  { subst q. split; [apply Z.mul_div_le; lia|].
    pose proof (Z.mul_succ_div_gt (Z.pos x * 2 ^ s) (Z.pos d)). lia. }
  assert (2 ^ 52 <= q < 2 ^ 54) as Hqr.
  { change (2 ^ 52) with 4503599627370496 in *.
    change (2 ^ 54) with 18014398509481984 in *.
    change (2 ^ 36) with 68719476736 in *.
    nia. }
  unfold SFdiv, SFdiv_core_binary.
  rewrite (Zdigits2_eq n (Z.pos x)), (Zdigits2_eq dd (Z.pos d)) by lia.
  replace (Z.min (fexp prec emax (n + 0 - (dd + 0))) (0 - 0)) with (- s)
    by (unfold fexp, emin, prec, emax; subst s; lia).
  replace (0 - 0 - - s) with s by lia.
  destruct s as [|ps|ps] eqn:Es; try lia.
  rewrite Z.shiftl_mul_pow2 by lia.
  pose proof (eq_refl : q = fst (Z.div_eucl (Z.pos x * 2 ^ Z.pos ps) (Z.pos d)))
    as Hfst.
  destruct (Z.div_eucl (Z.pos x * 2 ^ Z.pos ps) (Z.pos d)) as [q' r'].
  cbn [fst] in Hfst. subst q'.
  destruct (binary_round_aux_near q (- Z.pos ps) (new_location (Z.pos d) r'))
    as (m & e & Hm & Hcase); [done|lia|].
  cbn [xorb]. exists m, e, (2 ^ (- e)). split; [exact Hm|].
  change (2 ^ 36) with 68719476736 in *.
  destruct Hcase as [[-> Hb]|[[-> Hb]|[-> Hb]]].
  - split; [lia|]. split; [done|].
    replace (- - Z.pos ps) with (Z.pos ps) by lia. nia.
  - split; [lia|]. split; [done|].
    assert (2 ^ Z.pos ps = 2 * 2 ^ (- (- Z.pos ps + 1))) as EB.
    { rewrite <- Z.pow_succ_r by lia. f_equal. lia. }
    assert (0 < 2 ^ (- (- Z.pos ps + 1))) by (apply Z.pow_pos_nonneg; lia).
    nia.
  - split; [lia|]. split; [done|].
    assert (2 ^ Z.pos ps = 4 * 2 ^ (- (- Z.pos ps + 2))) as EB.
    { change 4 with (2 ^ 2). rewrite <- Z.pow_add_r by lia. f_equal. lia. }
    assert (0 < 2 ^ (- (- Z.pos ps + 2))) by (apply Z.pow_pos_nonneg; lia).
    nia.
Qed.

Lemma bit_length (x : positive) :
  Z.pos x <= 65535 ->
  exists n, 1 <= n <= 16 /\ 2 ^ (n - 1) <= Z.pos x < 2 ^ n.
Proof.
  intros Hx. exists (Z.succ (Z.log2 (Z.pos x))).
  pose proof (Z.log2_nonneg (Z.pos x)) as H0.
  assert (Z.log2 (Z.pos x) < 16) as H1
    by (apply Z.log2_lt_pow2; [|change (2 ^ 16) with 65536]; lia).
  pose proof (Z.log2_spec (Z.pos x) eq_refl) as H2.
  replace (Z.succ (Z.log2 (Z.pos x)) - 1) with (Z.log2 (Z.pos x)) by lia.
  split; [lia|exact H2].
Qed.

Lemma scale_ok k x :
  k = 1 \/ k = 2 -> u16 x ->
  exists y, int_truediv x (10 ^ k) = Ok y /\ float_round y k = Ok y /\
            float_digits y k = Some x.
Proof.
  intros Hk [Hx0 Hx1]. destruct x as [|px|px]; [| |lia].
  { exists (S754_zero false). by destruct Hk as [->| ->]. }
  destruct (bit_length px Hx1) as (n & Hn & Hpx).
  assert (exists (d : positive) dd, 10 ^ k = Z.pos d /\ 1 <= dd <= 16 /\
            2 ^ (dd - 1) <= Z.pos d < 2 ^ dd) as (d & dd & Hd & Hdd & Hpd).
  { destruct Hk as [->| ->];
      [exists 10%positive, 4|exists 100%positive, 7]; by vm_compute. }
  destruct (SFdiv_int_near px d n dd Hn Hdd Hpx Hpd)
    as (m & e & D & Hdiv & He & HD & Hb).
  assert (decimal_digits m e k = Z.pos px) as Hdig.
  { destruct e as [|pe|pe]; try lia. unfold decimal_digits.
    rewrite Hd. apply div_half_even_near; [by apply Z.pow_pos_nonneg|].
    change (- Z.neg pe) with (Z.pos pe) in HD. by rewrite <- HD. }
  exists (S754_finite false m e). split; [|split].
  - unfold int_truediv. rewrite Hd. cbn [exact_int]. by rewrite Hdiv.
  - unfold float_round. rewrite Hdig, Hd. cbn [exact_int]. by rewrite Hdiv.
  - unfold float_digits. by rewrite Hdig.
Qed.

Lemma int_truediv_no_IndexError a b : int_truediv a b <> Raise IndexError.
Proof.
  unfold int_truediv. destruct b, a; try done;
    match goal with |- context [SFdiv ?p ?e ?x ?y] => destruct (SFdiv p e x y) end; done.
Qed.

Lemma float_round_no_IndexError x k : float_round x k <> Raise IndexError.
Proof.
  unfold float_round. destruct x; try done.
  destruct (decimal_digits m e k); try done;
    match goal with |- context [SFdiv ?p ?e ?x ?y] => destruct (SFdiv p e x y) end; done.
Qed.

Lemma getitem_take n r r' i :
  (i < n)%nat -> take n r' = take n r -> getitem r' i = getitem r i.
Proof.
  intros Hi H. unfold getitem.
  rewrite <- (lookup_take_lt r n i), <- (lookup_take_lt r' n i) by done. by rewrite H.
Qed.

Lemma getitem_u16 r i x : Forall u16 r -> getitem r i = Ok x -> u16 x.
Proof.
  unfold getitem. intros Hr H. destruct (r !! i) as [z|] eqn:E; [|done].
  injection H as <-. by eapply Forall_lookup_1.
Qed.

Lemma scaled_handler_ok r i k x :
  k = 1 \/ k = 2 -> getitem r i = Ok x -> u16 x ->
  exists y,
    (x <- getitem r i ;; q <- int_truediv x (10 ^ k) ;; Ok (VFloat q)) = Ok (VFloat y) /\
    (x <- getitem r i ;; q <- int_truediv x (10 ^ k) ;; y <- float_round q k ;; Ok (VFloat y))
      = Ok (VFloat y) /\
    (q <- int_truediv x (10 ^ k) ;; float_round q k) = Ok y /\
    float_digits y k = Some x.
Proof.
  intros Hk Hg Hx. destruct (scale_ok k x Hk Hx) as (y & Hd & Hr & Hf).
  exists y. rewrite Hg. simpl. rewrite Hd. simpl. rewrite Hr. done.
Qed.

(** C9: every rule of the AQM table reads registers 0 to 6 only and every
    rule of the PMM table reads registers 0 to 41 only.  On a snapshot of
    at least 7 (AQM) or 42 (PMM) registers no rule raises [IndexError], the
    result depends on the first 7 (42) registers alone, and on 16-bit
    registers every rule returns a value.  The tables hold seven and
    fourteen rules. *)
Theorem profile_rules_in_range (h : handler) (n : nat) (r : list Z) :
  (AQM_rule h /\ n = 7%nat) \/ (PMM_rule h /\ n = 42%nat) ->
  (n <= length r)%nat ->
  h r <> Raise IndexError /\
  (Forall u16 r -> exists v, h r = Ok v) /\
  (forall r', take n r' = take n r -> h r' = h r) /\
  size AQM_GENERIC_SENSOR_DEFINE = 7%nat /\
  size PMM_GENERIC_SENSOR_DEFINE = 14%nat.
Proof.
  intros Hh Hn.
  assert (forall i, (i < n)%nat -> exists x, getitem r i = Ok x) as Hget.
  { intros i Hi. destruct (getitem_lt r i) as (x & _ & Hx); [lia|]. eauto. }
  assert (forall r' i, take n r' = take n r -> (i < n)%nat ->
                       getitem r' i = getitem r i) as Htake.
  { intros r' i Ht Hi. by apply (getitem_take n). }
  split; [|split; [|split; [|split; by vm_compute]]].
  - destruct Hh as [[(key & conf & Hc & ->) ->]|[(key & conf & Hc & ->) ->]];
      table_cases Hc; simpl;
      repeat match goal with
        | |- context [getitem r ?i] =>
            let x := fresh "x" in let Hx := fresh "Hx" in
            destruct (Hget i) as [x Hx]; [lia|]; rewrite Hx; simpl
        end; try done;
      match goal with
      | |- context [int_truediv ?a ?b] =>
          pose proof (int_truediv_no_IndexError a b);
          destruct (int_truediv a b) as [q|[]]; simpl; try done
      end;
      try match goal with
      | |- context [float_round ?a ?b] =>
          pose proof (float_round_no_IndexError a b);
          destruct (float_round a b) as [y|[]]; simpl; try done
      end.
  - intros Hr.
    destruct Hh as [[(key & conf & Hc & ->) ->]|[(key & conf & Hc & ->) ->]];
      table_cases Hc; simpl;
      try (repeat match goal with
        | |- context [getitem r ?i] =>
            let x := fresh "x" in let Hx := fresh "Hx" in
            destruct (Hget i) as [x Hx]; [lia|]; rewrite Hx; simpl
        end; eauto; fail);
      match goal with
      | |- context [getitem r ?i] =>
          let x := fresh "x" in let Hx := fresh "Hx" in
          destruct (Hget i) as [x Hx]; [lia|];
          pose proof (getitem_u16 r i x Hr Hx)
      end;
      match goal with
      | Hx : getitem r ?i = Ok ?x |- context [int_truediv _ 10] =>
          destruct (scaled_handler_ok r i 1 x) as (y & H1 & H2 & _); [by left|done|done|]
      | Hx : getitem r ?i = Ok ?x |- context [int_truediv _ 100] =>
          destruct (scaled_handler_ok r i 2 x) as (y & H1 & H2 & _); [by right|done|done|]
      end; eauto.
  - intros r' Ht.
    destruct Hh as [[(key & conf & Hc & ->) ->]|[(key & conf & Hc & ->) ->]];
      table_cases Hc; simpl;
      repeat match goal with
        | |- context [getitem r' ?i] => rewrite (Htake r' i Ht) by lia
        end; done.
Qed.

Lemma profile_rules_in_range_witness :
  ((AQM_rule (AQM_handler "humidity") /\ 7%nat = 7%nat) \/
   (PMM_rule (AQM_handler "humidity") /\ 7%nat = 42%nat)) /\
  (7 <= length [215; 455; 612; 12; 20; 31; 300])%nat /\
  AQM_handler "humidity" [215; 455; 612; 12; 20; 31; 300] <> Raise IndexError.
Proof.
  assert ((AQM_rule (AQM_handler "humidity") /\ 7%nat = 7%nat) \/
          (PMM_rule (AQM_handler "humidity") /\ 7%nat = 42%nat)) as H1.
  { left. split; [|reflexivity]. unfold AQM_rule.
    destruct (AQM_GENERIC_SENSOR_DEFINE !! "humidity") as [conf|] eqn:E;
      [|discriminate E].
    exists "humidity", conf. split; [exact E|].
    exact (proj1 (AQM_entries "humidity" conf E)). }
  assert (7 <= length [215; 455; 612; 12; 20; 31; 300])%nat as H2
    by (simpl; lia).
  refine (conj H1 (conj H2 _)).
  exact (proj1 (profile_rules_in_range (AQM_handler "humidity") 7
                  [215; 455; 612; 12; 20; 31; 300] H1 H2)).
Defined.

(** ** Decoding *)

(** C3: on a snapshot of at least 42 registers whose registers 40 and 41
    are 16-bit words [lo] and [hi], the total-energy rule of the PMM table
    returns [lo + hi * 65536]; the result is at most 4294967295; and
    registers 1000 and 2 give 132072. *)
Theorem total_energy_composite (r : list Z) (lo hi : Z) :
  (42 <= length r)%nat ->
  r !! 40%nat = Some lo -> r !! 41%nat = Some hi ->
  u16 lo -> u16 hi ->
  PMM_handler PMM_KEY_TOTAL r = Ok (VInt (lo + hi * 65536)) /\
  0 <= lo + hi * 65536 <= 4294967295 /\
  (lo = 1000 -> hi = 2 -> PMM_handler PMM_KEY_TOTAL r = Ok (VInt 132072)).
Proof.
  intros _ Hlo Hhi [? ?] [? ?].
  assert (PMM_handler PMM_KEY_TOTAL r = Ok (VInt (lo + hi * 65536))) as E.
  { unfold PMM_handler. change (dict_get PMM_GENERIC_SENSOR_DEFINE PMM_KEY_TOTAL)
      with (Ok (PmmConfig.mk ENERGY_WATT_HOUR
       (fun r => (a <- getitem r 40 ;; b <- getitem r 41 ;;
                  Ok (VInt (register_put_u32 a b))))
       SensorDeviceClass.ENERGY STATE_CLASS_TOTAL_INCREASING PMM_KEY_TOTAL)).
    simpl. rewrite (getitem_Some _ _ _ Hlo), (getitem_Some _ _ _ Hhi). done. }
  split; [done|]. split; [lia|]. intros -> ->. by rewrite E.
Qed.

Lemma total_energy_composite_witness :
  (42 <= length sample_pmm_registers)%nat /\
  sample_pmm_registers !! 40%nat = Some 1000 /\
  sample_pmm_registers !! 41%nat = Some 2 /\
  u16 1000 /\ u16 2 /\
  PMM_handler PMM_KEY_TOTAL sample_pmm_registers = Ok (VInt 132072).
Proof.
  assert (42 <= length sample_pmm_registers)%nat as H1 by (simpl; lia).
  assert (u16 1000) as H2 by (unfold u16; lia).
  assert (u16 2) as H3 by (unfold u16; lia).
  refine (conj H1 (conj eq_refl (conj eq_refl (conj H2 (conj H3 _))))).
  exact (proj2 (proj2 (total_energy_composite sample_pmm_registers 1000 2
                         H1 eq_refl eq_refl H2 H3)) eq_refl eq_refl).
Defined.

(** C5: on a snapshot of at least 17 registers the this-hour-energy rule of
    the PMM table returns register 6 times ten plus register 16. *)
Theorem this_hour_energy_formula (r : list Z) (a b : Z) :
  (17 <= length r)%nat ->
  r !! 6%nat = Some a -> r !! 16%nat = Some b ->
  PMM_handler PMM_KEY_THIS_HOUR_ENERGY r = Ok (VInt (a * 10 + b)).
Proof.
  intros _ Ha Hb. unfold PMM_handler.
  change (dict_get PMM_GENERIC_SENSOR_DEFINE PMM_KEY_THIS_HOUR_ENERGY)
    with (Ok (PmmConfig.mk ENERGY_WATT_HOUR
       (fun r => (a <- getitem r 6 ;; b <- getitem r 16 ;;
                  Ok (VInt (a * 10 + b))))
       SensorDeviceClass.ENERGY STATE_CLASS_TOTAL PMM_KEY_THIS_HOUR_ENERGY)).
  simpl. by rewrite (getitem_Some _ _ _ Ha), (getitem_Some _ _ _ Hb).
Qed.

Lemma this_hour_energy_formula_witness :
  (17 <= length sample_pmm_registers)%nat /\
  sample_pmm_registers !! 6%nat = Some 12 /\
  sample_pmm_registers !! 16%nat = Some 0 /\
  PMM_handler PMM_KEY_THIS_HOUR_ENERGY sample_pmm_registers = Ok (VInt 120).
Proof.
  assert (17 <= length sample_pmm_registers)%nat as H1 by (simpl; lia).
  refine (conj H1 (conj eq_refl (conj eq_refl _))).
  exact (this_hour_energy_formula sample_pmm_registers 12 0 H1 eq_refl eq_refl).
Defined.

Lemma AQM_handler_temperature r :
  AQM_handler "temperature" r =
  (x <- getitem r 0 ;; q <- int_truediv x 10 ;; y <- float_round q 1 ;; Ok (VFloat y)).
Proof. reflexivity. Qed.

Lemma AQM_handler_humidity r :
  AQM_handler "humidity" r =
  (x <- getitem r 1 ;; q <- int_truediv x 10 ;; y <- float_round q 1 ;; Ok (VFloat y)).
Proof. reflexivity. Qed.

Lemma PMM_handler_voltage r :
  PMM_handler PMM_KEY_VOLTAGE r =
  (x <- getitem r 0 ;; q <- int_truediv x 10 ;; Ok (VFloat q)).
Proof. reflexivity. Qed.

Lemma PMM_handler_current r :
  PMM_handler PMM_KEY_CURRENT r =
  (x <- getitem r 1 ;; q <- int_truediv x 100 ;; Ok (VFloat q)).
Proof. reflexivity. Qed.

Lemma PMM_handler_power_factor r :
  PMM_handler PMM_KEY_POWER_FACTOR r =
  (x <- getitem r 3 ;; q <- int_truediv x 10 ;; Ok (VFloat q)).
Proof. reflexivity. Qed.

Lemma PMM_handler_frequency r :
  PMM_handler PMM_KEY_FREQUENCY r =
  (x <- getitem r 4 ;; q <- int_truediv x 10 ;; Ok (VFloat q)).
Proof. reflexivity. Qed.

Lemma humidity_455 : int_truediv 455 (10 ^ 1) = Ok float_45_5.
Proof. reflexivity. Qed.

(** C4: each rule that divides one register by [10^k] (AQM temperature and
    humidity, PMM voltage, power factor and frequency with [k = 1], PMM
    current with [k = 2]) returns, on a 16-bit register [x], the float [y]
    that [round(x / 10**k, k)] evaluates to; [y] reads [x] in units of
    [10^-k]; and a humidity register of 455 decodes to 45.5. *)
Theorem scale_rules_rounded (h : handler) (i : nat) (k : Z) (r : list Z) (x : Z) :
  (h, i, k) ∈ scale_rules -> r !! i = Some x -> u16 x ->
  exists y,
    h r = Ok (VFloat y) /\
    (q <- int_truediv x (10 ^ k) ;; float_round q k) = Ok y /\
    float_digits y k = Some x /\
    (x = 455 -> k = 1 -> y = float_45_5).
Proof.
  intros Hin Hx Hu.
  assert (k = 1 \/ k = 2) as Hk.
  { unfold scale_rules in Hin.
    repeat (apply elem_of_cons in Hin as [Hin|Hin]; [injection Hin as _ _ ->; lia|]).
    by apply elem_of_nil in Hin. }
  destruct (scaled_handler_ok r i k x Hk (getitem_Some _ _ _ Hx) Hu)
    as (y & H1 & H2 & H3 & H4).
  exists y. split; [|split; [done|split; [done|]]].
  - unfold scale_rules in Hin.
    repeat (apply elem_of_cons in Hin as [Hin|Hin];
            [injection Hin as -> -> ->|]); [..|by apply elem_of_nil in Hin].
    + by rewrite AQM_handler_temperature.
    + by rewrite AQM_handler_humidity.
    + by rewrite PMM_handler_voltage.
    + by rewrite PMM_handler_current.
    + by rewrite PMM_handler_power_factor.
    + by rewrite PMM_handler_frequency.
  - intros -> ->. rewrite humidity_455 in H3. simpl in H3.
    change (float_round float_45_5 1) with (Ok float_45_5) in H3. congruence.
Qed.

Lemma scale_rules_rounded_witness :
  (AQM_handler "humidity", 1%nat, 1) ∈ scale_rules /\
  [215; 455; 612; 12; 20; 31; 300] !! 1%nat = Some 455 /\
  u16 455 /\
  AQM_handler "humidity" [215; 455; 612; 12; 20; 31; 300] = Ok (VFloat float_45_5).
Proof.
  assert ((AQM_handler "humidity", 1%nat, 1) ∈ scale_rules) as H1.
  { unfold scale_rules. apply elem_of_cons. right. apply elem_of_cons. by left. }
  assert (u16 455) as H2 by (unfold u16; lia).
  refine (conj H1 (conj eq_refl (conj H2 _))).
  destruct (scale_rules_rounded _ _ _ [215; 455; 612; 12; 20; 31; 300] 455
              H1 eq_refl H2) as (y & Hy & _ & _ & E).
  rewrite Hy. by rewrite (E eq_refl eq_refl).
Defined.

(** ** Refreshing an entity *)

Lemma update_classes cls poll self :
  update cls poll self = PmmVirtualSensor_update poll self.
Proof. by destruct cls. Qed.

Lemma update_run cls poll st self e p :
  entities st !! self = Some e ->
  proxies st !! SensorEntity._proxy e = Some p ->
  update cls poll self st =
    match SensorEntity.value_handler e (SihasProxy.registers (poll p)) with
    | Ok v =>
        (Ok tt,
         mkStore (<[SensorEntity._proxy e := poll p]> (proxies st))
           (<[self := refreshed e v (SihasProxy._attr_available (poll p))]>
              (entities st)))
    | Raise ex => (Raise ex, polled_store poll st (SensorEntity._proxy e) p)
    end.
Proof.
  intros He Hp. rewrite update_classes.
  pose proof (lookup_lt_Some _ _ _ He) as Hle.
  pose proof (lookup_lt_Some _ _ _ Hp) as Hlp.
  unfold PmmVirtualSensor_update, SihasProxy_update, modify_proxy,
    modify_entity, bindM, get_entity, get_proxy, lift, polled_store.
  cbn. rewrite He. cbn. rewrite Hp. cbn.
  rewrite list_lookup_insert_eq by done.
  destruct (SensorEntity.value_handler e _) as [v|ex]; [|done].
  cbn. rewrite He. cbn. rewrite list_lookup_insert_eq by done. cbn.
  rewrite list_lookup_insert_eq by done.
  by rewrite list_insert_insert_eq.
Qed.

Lemma update_dangling cls poll st self e :
  entities st !! self = Some e ->
  proxies st !! SensorEntity._proxy e = None ->
  update cls poll self st = (Raise KeyError, st).
Proof.
  intros He Hp. rewrite update_classes.
  unfold PmmVirtualSensor_update, SihasProxy_update, modify_proxy,
    bindM, get_entity, get_proxy.
  cbn. rewrite He. cbn. by rewrite Hp.
Qed.

(** C1, as stated, fails: with the window unavailable after the poll the
    refresh of the humidity entity still decodes register 1 and stores 45.5
    as the native value, and on an empty snapshot the refresh raises
    [IndexError]. *)
Lemma availability_gate_counterexample :
  fst (update AqmVirtualSensor poll_unreachable 4 sample_store) = Ok tt /\
  SihasProxy._attr_available <$>
    proxies (snd (update AqmVirtualSensor poll_unreachable 4 sample_store)) !! 0%nat
  = Some false /\
  SensorEntity._attr_native_value <$>
    entities (snd (update AqmVirtualSensor poll_unreachable 4 sample_store)) !! 4%nat
  = Some (Some (VFloat float_45_5)) /\
  fst (update AqmVirtualSensor poll_unreachable_empty 4 sample_store)
  = Raise IndexError.
Proof. vm_compute. done. Qed.

(** C1, amended: a refresh evaluates the decode rule on the registers the
    poll left, whatever the availability flag: the outcome of the refresh
    is the outcome of the rule.  When the rule raises, the refresh raises
    the same error and no entity changes; when the rule returns [v], the
    refresh returns normally, the native value attribute of the entity
    holds [v] and its availability attribute holds the flag.  In particular,
    when the flag is false after the poll the entity is marked unavailable
    and holds the decoded [v]. *)
Theorem refresh_decodes_when_unavailable (cls : sensor_class)
    (poll : SihasProxy.t -> SihasProxy.t) (st : Store) (self : nat)
    (e : SensorEntity.t) (p : SihasProxy.t) :
  entities st !! self = Some e ->
  proxies st !! SensorEntity._proxy e = Some p ->
  fst (update cls poll self st)
  = (v <- SensorEntity.value_handler e (SihasProxy.registers (poll p)) ;;
     Ok tt) /\
  (forall ex,
     SensorEntity.value_handler e (SihasProxy.registers (poll p)) = Raise ex ->
     update cls poll self st
     = (Raise ex, polled_store poll st (SensorEntity._proxy e) p)) /\
  (forall v,
     SensorEntity.value_handler e (SihasProxy.registers (poll p)) = Ok v ->
     exists st' e',
       update cls poll self st = (Ok tt, st') /\
       entities st' !! self = Some e' /\
       SensorEntity._attr_native_value e' = Some v /\
       SensorEntity._attr_available e'
       = SihasProxy._attr_available (poll p) /\
       (SihasProxy._attr_available (poll p) = false ->
        SensorEntity._attr_available e' = false /\
        SensorEntity._attr_native_value e' = Some v)).
Proof.
  intros He Hp. rewrite (update_run cls poll st self e p He Hp).
  split; [|split].
  - by destruct (SensorEntity.value_handler e _).
  - by intros ex ->.
  - intros v ->. eexists _, _. split; [done|]. cbn.
    rewrite list_lookup_insert_eq by by eapply lookup_lt_Some.
    split; [done|]. cbn. split; [done|]. split; [done|].
    by intros ->.
Qed.

Lemma sample_store_humidity : entities sample_store !! 4%nat = Some sample_humidity.
Proof. reflexivity. Qed.

Lemma sample_store_proxy :
  proxies sample_store !! SensorEntity._proxy sample_humidity = Some sample_proxy.
Proof. reflexivity. Qed.

Lemma refresh_decodes_when_unavailable_witness :
  entities sample_store !! 4%nat = Some sample_humidity /\
  proxies sample_store !! SensorEntity._proxy sample_humidity = Some sample_proxy /\
  exists st' e',
    update AqmVirtualSensor poll_unreachable 4 sample_store = (Ok tt, st') /\
    entities st' !! 4%nat = Some e' /\
    SensorEntity._attr_native_value e' = Some (VFloat float_45_5) /\
    SensorEntity._attr_available e' = false.
Proof.
  assert (entities sample_store !! 4%nat = Some sample_humidity) as H1
    by reflexivity.
  assert (proxies sample_store !! SensorEntity._proxy sample_humidity
          = Some sample_proxy) as H2 by reflexivity.
  assert (SensorEntity.value_handler sample_humidity
            (SihasProxy.registers (poll_unreachable sample_proxy))
          = Ok (VFloat float_45_5)) as H4 by (vm_compute; reflexivity).
  refine (conj H1 (conj H2 _)).
  destruct (proj2 (proj2 (refresh_decodes_when_unavailable AqmVirtualSensor
                            poll_unreachable sample_store 4 sample_humidity
                            sample_proxy H1 H2)) (VFloat float_45_5) H4)
    as (st' & e' & Hrun & He' & Hv & Ha & _).
  exists st', e'. exact (conj Hrun (conj He' (conj Hv Ha))).
Defined.

(** C2, as stated, fails: on a one-register snapshot the refresh of the
    humidity entity raises [IndexError] to its caller, and the entity is
    still marked available. *)
Lemma short_snapshot_counterexample :
  fst (update AqmVirtualSensor poll_short 4 sample_store) = Raise IndexError /\
  SihasProxy.registers <$>
    proxies (snd (update AqmVirtualSensor poll_short 4 sample_store)) !! 0%nat
  = Some [215] /\
  SensorEntity._attr_available <$>
    entities (snd (update AqmVirtualSensor poll_short 4 sample_store)) !! 4%nat
  = Some true.
Proof. vm_compute. done. Qed.

(** C2, amended: when the decode rule of an entity makes an out-of-range
    access on the registers the poll left, the refresh raises [IndexError]
    to its caller; the attributes of that entity and of every other entity
    keep their previous contents, and only the polled proxy has changed. *)
Theorem refresh_propagates_IndexError (cls : sensor_class)
    (poll : SihasProxy.t -> SihasProxy.t) (st : Store) (self : nat)
    (e : SensorEntity.t) (p : SihasProxy.t) :
  entities st !! self = Some e ->
  proxies st !! SensorEntity._proxy e = Some p ->
  SensorEntity.value_handler e (SihasProxy.registers (poll p))
  = Raise IndexError ->
  exists st',
    update cls poll self st = (Raise IndexError, st') /\
    entities st' = entities st /\
    proxies st' = <[SensorEntity._proxy e := poll p]> (proxies st).
Proof.
  intros He Hp Hv. rewrite (update_run cls poll st self e p He Hp), Hv.
  by eexists.
Qed.

Lemma refresh_propagates_IndexError_witness :
  entities sample_store !! 4%nat = Some sample_humidity /\
  proxies sample_store !! SensorEntity._proxy sample_humidity = Some sample_proxy /\
  SensorEntity.value_handler sample_humidity
    (SihasProxy.registers (poll_short sample_proxy)) = Raise IndexError /\
  exists st',
    update AqmVirtualSensor poll_short 4 sample_store = (Raise IndexError, st') /\
    entities st' = entities sample_store /\
    proxies st' = <[SensorEntity._proxy sample_humidity := poll_short sample_proxy]>
                    (proxies sample_store).
Proof.
  assert (entities sample_store !! 4%nat = Some sample_humidity) as H1
    by reflexivity.
  assert (proxies sample_store !! SensorEntity._proxy sample_humidity
          = Some sample_proxy) as H2 by reflexivity.
  assert (SensorEntity.value_handler sample_humidity
            (SihasProxy.registers (poll_short sample_proxy))
          = Raise IndexError) as H3 by reflexivity.
  refine (conj H1 (conj H2 (conj H3 _))).
  exact (refresh_propagates_IndexError AqmVirtualSensor poll_short
           sample_store 4 sample_humidity sample_proxy H1 H2 H3).
Defined.

Lemma getitem_ref_run (B : Type) (K : Z -> M B) st r p i :
  proxies st !! r = Some p ->
  bindM (getitem_ref r i) K st
  = match getitem (SihasProxy.registers p) i with
    | Ok x => K x st
    | Raise ex => (Raise ex, st)
    end.
Proof.
  intros Hp. unfold getitem_ref, get_proxy, lift, bindM. rewrite Hp.
  by destruct (getitem (SihasProxy.registers p) i).
Qed.

Lemma lift_run (A B : Type) (m : result A) (K : A -> M B) st :
  bindM (lift m) K st
  = match m with
    | Ok x => K x st
    | Raise ex => (Raise ex, st)
    end.
Proof. unfold lift, bindM. by destruct m. Qed.

(** Runs a lambda of a table on the register list of the proxy [p]. *)
Ltac run_lambda Hp :=
  repeat first
    [ rewrite (getitem_ref_run _ _ _ _ _ _ Hp)
    | rewrite lift_run
    | match goal with
      | |- context [getitem ?l ?i] => destruct (getitem l i); cbn [bind]
      | |- context [int_truediv ?a ?b] => destruct (int_truediv a b); cbn [bind]
      | |- context [float_round ?a ?b] => destruct (float_round a b); cbn [bind]
      end ];
  try reflexivity.

(** C7: every rule of either table, run on the register list object of a
    proxy of the store, leaves the whole store as it is (no side effect)
    and returns what a function of the contents of that register list
    alone returns (no hidden state): the [value_handler] of the table
    entry applied to the registers, which is the call [update] makes.  Run
    a second time on the store the first run left, it returns the same
    result and leaves the same store. *)
Theorem decode_twice_same (key : string) (st : Store) (r : nat)
    (p : SihasProxy.t) :
  proxies st !! r = Some p ->
  (forall conf, AQM_GENERIC_SENSOR_DEFINE !! key = Some conf ->
     exists f, AQM_lambdas !! key = Some f /\
       f r st = (AqmConf.value_handler conf (SihasProxy.registers p), st) /\
       f r (snd (f r st)) = f r st) /\
  (forall conf, PMM_GENERIC_SENSOR_DEFINE !! key = Some conf ->
     exists f, PMM_lambdas !! key = Some f /\
       f r st = (PmmConfig.value_handler conf (SihasProxy.registers p), st) /\
       f r (snd (f r st)) = f r st).
Proof.
  intros Hp.
  assert (forall (f : nat -> M pyval) res,
            f r st = (res, st) ->
            f r st = (res, st) /\ f r (snd (f r st)) = f r st) as Htwice.
  { intros f res E. split; [exact E|]. by rewrite E. }
  split; intros conf Hc; table_cases Hc;
    (eexists; split; [table_lookup|]);
    apply Htwice; cbn [AqmConf.value_handler PmmConfig.value_handler];
    unfold ret; run_lambda Hp.
Qed.

Lemma decode_twice_same_witness :
  proxies sample_store !! 0%nat = Some sample_proxy /\
  exists f,
    AQM_lambdas !! "humidity" = Some f /\
    f 0%nat sample_store = (Ok (VFloat float_45_5), sample_store) /\
    f 0%nat (snd (f 0%nat sample_store)) = f 0%nat sample_store.
Proof.
  assert (proxies sample_store !! 0%nat = Some sample_proxy) as H1
    by reflexivity.
  refine (conj H1 _).
  eassert (AQM_GENERIC_SENSOR_DEFINE !! "humidity" = Some _) as Hc
    by table_lookup.
  destruct (proj1 (decode_twice_same "humidity" sample_store 0 sample_proxy H1)
              _ Hc) as (f & Hf & Hrun & Htwice).
  exists f. exact (conj Hf (conj Hrun Htwice)).
Defined.

(** C8: the refresh of one entity changes no attribute of any other entity
    and no proxy other than the one it polls; an entity bound to another
    proxy keeps both its attributes and its proxy. *)
Theorem refresh_frame (cls : sensor_class)
    (poll : SihasProxy.t -> SihasProxy.t) (st : Store) (self other : nat)
    (e : SensorEntity.t) :
  entities st !! self = Some e ->
  other <> self ->
  let st' := snd (update cls poll self st) in
  entities st' !! other = entities st !! other /\
  (forall pid, pid <> SensorEntity._proxy e ->
               proxies st' !! pid = proxies st !! pid) /\
  (forall e2, entities st !! other = Some e2 ->
              SensorEntity._proxy e2 <> SensorEntity._proxy e ->
              entities st' !! other = Some e2 /\
              proxies st' !! SensorEntity._proxy e2
              = proxies st !! SensorEntity._proxy e2).
Proof.
  intros He Hne st'.
  assert (entities st' !! other = entities st !! other /\
          (forall pid, pid <> SensorEntity._proxy e ->
                       proxies st' !! pid = proxies st !! pid)) as [H1 H2].
  { subst st'.
    destruct (proxies st !! SensorEntity._proxy e) as [p|] eqn:Hp.
    - rewrite (update_run cls poll st self e p He Hp).
      destruct (SensorEntity.value_handler e _) as [v|ex]; cbn.
      + split; [by rewrite list_lookup_insert_ne|].
        intros pid Hpid. by rewrite list_lookup_insert_ne.
      + split; [done|]. intros pid Hpid. by rewrite list_lookup_insert_ne.
    - by rewrite (update_dangling cls poll st self e He Hp). }
  split; [done|]. split; [done|].
  intros e2 He2 Hp2. split; [by rewrite H1|by apply H2].
Qed.

Lemma refresh_frame_witness :
  entities sample_store !! 4%nat = Some sample_humidity /\
  6%nat <> 4%nat /\
  entities (snd (update AqmVirtualSensor poll_unreachable 4 sample_store)) !! 6%nat
  = entities sample_store !! 6%nat.
Proof.
  assert (entities sample_store !! 4%nat = Some sample_humidity) as H1
    by reflexivity.
  assert (6%nat <> 4%nat) as H2 by lia.
  refine (conj H1 (conj H2 _)).
  exact (proj1 (refresh_frame AqmVirtualSensor poll_unreachable sample_store
                  4 6 sample_humidity H1 H2)).
Defined.

(** ** Setting up an entry *)

Lemma eq_str_false t s : t <> CStr s -> eq_str t s = false.
Proof.
  intros H. destruct t as [s'|z]; [|done]. cbn.
  apply bool_decide_eq_false. congruence.
Qed.

(** C6, as stated, fails: setting up an entry whose type is not a known
    model ("XYZ", and also "PMM300" and "AQM300") returns normally and
    adds nothing. *)
Lemma unknown_model_counterexample :
  sample_setup "XYZ" = (Ok tt, empty_store) /\
  sample_setup "PMM300" = (Ok tt, empty_store) /\
  sample_setup "AQM300" = (Ok tt, empty_store).
Proof. vm_compute. done. Qed.

(** C6, amended: for every entry whose type is neither "PMM" nor "AQM",
    [async_setup_entry] adds no proxy and no entity and returns normally,
    without an error. *)
Theorem unknown_type_adds_nothing
    (SihasProxy_init : conf_val -> conf_val -> conf_val -> conf_val -> SihasProxy.t)
    (CONF_TYPE CONF_IP CONF_MAC CONF_CFG : string)
    (entry : ConfigEntry) (st : Store) (t : conf_val) :
  data entry !! CONF_TYPE = Some t ->
  t <> CStr "PMM" -> t <> CStr "AQM" ->
  async_setup_entry SihasProxy_init CONF_TYPE CONF_IP CONF_MAC CONF_CFG entry st
  = (Ok tt, st).
Proof.
  intros Ht Hp Ha. unfold async_setup_entry, bindM, lift, dict_get.
  rewrite Ht. cbn. rewrite (eq_str_false _ _ Hp). cbn.
  by rewrite (eq_str_false _ _ Ha).
Qed.

Lemma unknown_type_adds_nothing_witness :
  data (sample_entry "XYZ") !! "type" = Some (CStr "XYZ") /\
  CStr "XYZ" <> CStr "PMM" /\ CStr "XYZ" <> CStr "AQM" /\
  sample_setup "XYZ" = (Ok tt, empty_store).
Proof.
  assert (data (sample_entry "XYZ") !! "type" = Some (CStr "XYZ")) as H1
    by reflexivity.
  assert (CStr "XYZ" <> CStr "PMM") as H2 by discriminate.
  assert (CStr "XYZ" <> CStr "AQM") as H3 by discriminate.
  refine (conj H1 (conj H2 (conj H3 _))).
  exact (unknown_type_adds_nothing sample_init "type" "ip" "mac" "cfg"
           (sample_entry "XYZ") empty_store (CStr "XYZ") H1 H2 H3).
Defined.

Lemma append_inj_l (s x y : string) : s +:+ x = s +:+ y -> x = y.
Proof. induction s as [|c s IH]; cbn; [done|]. intros H. injection H as H. auto. Qed.

Lemma traverse_ok {A B : Type} (f : A -> M B) (P : A -> B -> Prop)
    (l : list A) (st : Store) :
  (forall a, a ∈ l -> exists b, f a st = (Ok b, st) /\ P a b) ->
  exists bs, traverse f l st = (Ok bs, st) /\ Forall2 P l bs.
Proof.
  induction l as [|a l IH]; intros H.
  - exists []. split; [done|constructor].
  - destruct (H a) as (b & Hb & HP); [by left|].
    destruct IH as (bs & Hbs & HF); [intros a' Ha'; apply H; by right|].
    exists (b :: bs). split; [|by constructor].
    cbn. unfold bindM. rewrite Hb, Hbs. done.
Qed.

Lemma aqm_unique_id_inj p c1 c2 :
  aqm_unique_id p c1 = aqm_unique_id p c2 -> c1 = c2.
Proof.
  unfold aqm_unique_id. intros H.
  do 4 apply append_inj_l in H.
  destruct c1, c2; (done || discriminate H).
Qed.

Lemma AqmVirtualSensor_init_run st self p conf :
  proxies st !! self = Some p ->
  exists e,
    AqmVirtualSensor_init self conf st = (Ok e, st) /\
    SensorEntity._attr_device_class e = AqmConf.device_class conf /\
    SensorEntity._attr_unique_id e = aqm_unique_id p (AqmConf.device_class conf).
Proof.
  intros Hp. unfold AqmVirtualSensor_init, bindM, get_proxy, ret. rewrite Hp.
  eexists. split; [done|]. done.
Qed.

Lemma AQM_lookup_class key :
  key ∈ ["co2"; "pm25"; "pm10"; "tvoc"; "humidity"; "illuminance";
         "temperature"]%string ->
  exists conf,
    AQM_GENERIC_SENSOR_DEFINE !! key = Some conf /\
    (key, AqmConf.device_class conf)
    ∈ [("co2", SensorDeviceClass.CO2); ("pm25", SensorDeviceClass.PM25);
       ("pm10", SensorDeviceClass.PM10);
       ("tvoc", SensorDeviceClass.VOLATILE_ORGANIC_COMPOUNDS);
       ("humidity", SensorDeviceClass.HUMIDITY);
       ("illuminance", SensorDeviceClass.ILLUMINANCE);
       ("temperature", SensorDeviceClass.TEMPERATURE)]%string.
Proof.
  intros Hkey.
  repeat (apply elem_of_cons in Hkey as [->|Hkey];
          [eexists; split;
           [apply elem_of_list_to_map_1;
            [cbn [fmap list_fmap fst];
             repeat (apply NoDup_cons; split;
                     [intros Hin;
                      repeat (apply elem_of_cons in Hin as [Hin|Hin];
                              [discriminate Hin|]);
                      by apply elem_of_nil in Hin|]);
             apply NoDup_nil_2
            |repeat (apply elem_of_cons; first [left; reflexivity|right])]
           |cbn [AqmConf.device_class];
            repeat (apply elem_of_cons; first [left; reflexivity|right])]|]).
  by apply elem_of_nil in Hkey.
Qed.

(** C10: [Aqm300.get_sub_entities] builds seven entities; the identifier
    of each is built from its device class, the seven device classes are
    pairwise distinct, and so are the seven identifiers. *)
Theorem aqm_unique_ids_distinct (st : Store) (self : nat) (p : SihasProxy.t) :
  proxies st !! self = Some p ->
  exists es,
    Aqm300_get_sub_entities self st = (Ok es, st) /\
    length es = 7%nat /\
    SensorEntity._attr_unique_id <$> es
    = aqm_unique_id p <$> (SensorEntity._attr_device_class <$> es) /\
    NoDup (SensorEntity._attr_device_class <$> es) /\
    NoDup (SensorEntity._attr_unique_id <$> es).
Proof.
  intros Hp.
  destruct (traverse_ok
    (fun key => conf <~ lift (dict_get AQM_GENERIC_SENSOR_DEFINE key) ;;
                AqmVirtualSensor_init self conf)
    (fun key e =>
       (key, SensorEntity._attr_device_class e)
       ∈ [("co2", SensorDeviceClass.CO2); ("pm25", SensorDeviceClass.PM25);
          ("pm10", SensorDeviceClass.PM10);
          ("tvoc", SensorDeviceClass.VOLATILE_ORGANIC_COMPOUNDS);
          ("humidity", SensorDeviceClass.HUMIDITY);
          ("illuminance", SensorDeviceClass.ILLUMINANCE);
          ("temperature", SensorDeviceClass.TEMPERATURE)]%string /\
       SensorEntity._attr_unique_id e
       = aqm_unique_id p (SensorEntity._attr_device_class e))
    ["co2"; "pm25"; "pm10"; "tvoc"; "humidity"; "illuminance"; "temperature"]%string
    st) as (es & Hes & HF).
  { intros key Hkey.
    destruct (AQM_lookup_class key Hkey) as (conf & Hc & Hcl).
    destruct (AqmVirtualSensor_init_run st self p conf Hp) as (e & He & Hd & Hu).
    exists e. unfold bindM, lift, dict_get. rewrite Hc, He, Hd.
    by rewrite Hu. }
  exists es. split; [exact Hes|].
  repeat match goal with
         | H : Forall2 _ (_ :: _) _ |- _ =>
             apply Forall2_cons_inv_l in H as (? & ? & [? ?] & ? & ->)
         | H : Forall2 _ [] _ |- _ => apply Forall2_nil_inv_l in H as ->
         end.
  repeat match goal with
         | H : (_, SensorEntity._attr_device_class _) ∈ _ |- _ =>
             repeat (apply elem_of_cons in H as [H|H];
                     [first [discriminate H|injection H as H]|]);
             try by apply elem_of_nil in H
         end.
  split; [done|]. cbn [fmap list_fmap].
  repeat match goal with
         | H : SensorEntity._attr_unique_id _ = _ |- _ => rewrite H; clear H
         end.
  repeat match goal with
         | H : SensorEntity._attr_device_class _ = _ |- _ =>
             rewrite H; clear H
         end.
  assert (NoDup [SensorDeviceClass.CO2; SensorDeviceClass.PM25;
                 SensorDeviceClass.PM10;
                 SensorDeviceClass.VOLATILE_ORGANIC_COMPOUNDS;
                 SensorDeviceClass.HUMIDITY; SensorDeviceClass.ILLUMINANCE;
                 SensorDeviceClass.TEMPERATURE]) as Hnd.
  { repeat (apply NoDup_cons; split;
            [intros Hin;
             repeat (apply elem_of_cons in Hin as [Hin|Hin]; [discriminate Hin|]);
             by apply elem_of_nil in Hin|]).
    apply NoDup_nil_2. }
  split; [done|]. split; [exact Hnd|].
  apply (NoDup_fmap_2_strong (aqm_unique_id p)) in Hnd; [exact Hnd|].
  intros c1 c2 _ _. apply aqm_unique_id_inj.
Qed.

Lemma aqm_unique_ids_distinct_witness :
  proxies sample_store !! 0%nat = Some sample_proxy /\
  exists es,
    Aqm300_get_sub_entities 0 sample_store = (Ok es, sample_store) /\
    length es = 7%nat /\
    NoDup (SensorEntity._attr_unique_id <$> es).
Proof.
  assert (proxies sample_store !! 0%nat = Some sample_proxy) as H1
    by reflexivity.
  refine (conj H1 _).
  destruct (aqm_unique_ids_distinct sample_store 0 sample_proxy H1)
    as (es & He & Hl & _ & _ & Hn).
  exists es. exact (conj He (conj Hl Hn)).
Defined.

(** * Further properties *)

(** ** The rules on arbitrary snapshots *)

Lemma getitem_Raise r i ex : getitem r i = Raise ex -> ex = IndexError.
Proof. unfold getitem. destruct (r !! i); [done|]. by intros [= <-]. Qed.

Lemma getitem_app r r' i x : getitem r i = Ok x -> getitem (r ++ r') i = Ok x.
Proof.
  unfold getitem. destruct (r !! i) as [y|] eqn:E; [|done].
  intros [= <-]. by rewrite (lookup_app_l_Some _ _ _ _ E).
Qed.

Lemma humidity_rule : AQM_rule (AQM_handler "humidity").
Proof.
  unfold AQM_rule.
  destruct (AQM_GENERIC_SENSOR_DEFINE !! "humidity") as [conf|] eqn:E;
    [|discriminate E].
  exists "humidity", conf. split; [exact E|].
  exact (proj1 (AQM_entries "humidity" conf E)).
Qed.

(** X1: On 16-bit registers a rule of either table fails in one way only: with
    [IndexError], when the snapshot is too short.  No rule raises
    [ZeroDivisionError], [OverflowError] or [KeyError]. *)
Theorem rules_raise_only_IndexError (h : handler) (r : list Z) (ex : exn) :
  AQM_rule h \/ PMM_rule h -> Forall u16 r -> h r = Raise ex ->
  ex = IndexError.
Proof.
  intros Hh Hr.
  destruct Hh as [(key & conf & Hc & ->)|(key & conf & Hc & ->)];
    table_cases Hc; cbn [AqmConf.value_handler PmmConfig.value_handler];
    repeat match goal with
      | |- context [getitem r ?i] =>
          let x := fresh "x" in let Hx := fresh "Hx" in
          destruct (getitem r i) as [x|ex'] eqn:Hx;
          [pose proof (getitem_u16 r i x Hr Hx)
          |apply getitem_Raise in Hx as ->; cbn [bind]; by intros [= <-]]
      end; cbn [bind]; try done;
    match goal with
    | Hu : u16 ?x |- context [int_truediv ?x 10] =>
        destruct (scale_ok 1 x) as (y & H1 & H2 & _); [by left|done|];
        change (10 ^ 1) with 10 in H1; rewrite H1; cbn [bind]; by rewrite ?H2
    | Hu : u16 ?x |- context [int_truediv ?x 100] =>
        destruct (scale_ok 2 x) as (y & H1 & H2 & _); [by right|done|];
        change (10 ^ 2) with 100 in H1; rewrite H1; cbn [bind]; by rewrite ?H2
    end.
Qed.

Lemma rules_raise_only_IndexError_witness :
  (AQM_rule (AQM_handler "humidity") \/ PMM_rule (AQM_handler "humidity")) /\
  Forall u16 [215] /\
  AQM_handler "humidity" [215] = Raise IndexError /\
  IndexError = IndexError.
Proof.
  assert (AQM_rule (AQM_handler "humidity") \/ PMM_rule (AQM_handler "humidity"))
    as H1 by (left; exact humidity_rule).
  assert (Forall u16 [215]) as H2
    by (repeat constructor; unfold u16; lia).
  assert (AQM_handler "humidity" [215] = Raise IndexError) as H3 by reflexivity.
  refine (conj H1 (conj H2 (conj H3 _))).
  exact (rules_raise_only_IndexError (AQM_handler "humidity") [215] IndexError
           H1 H2 H3).
Defined.

(** X2: Once a snapshot is long enough for a rule, registers appended to it do
    not change the result. *)
Theorem rule_extension_stable (h : handler) (r r' : list Z) :
  AQM_rule h \/ PMM_rule h -> h r <> Raise IndexError -> h (r ++ r') = h r.
Proof.
  intros Hh.
  destruct Hh as [(key & conf & Hc & ->)|(key & conf & Hc & ->)];
    table_cases Hc; cbn [AqmConf.value_handler PmmConfig.value_handler];
    repeat match goal with
      | |- context [getitem r ?i] =>
          let x := fresh "x" in let Hx := fresh "Hx" in
          destruct (getitem r i) as [x|ex'] eqn:Hx;
          [rewrite (getitem_app r r' i x Hx)
          |apply getitem_Raise in Hx as ->; cbn [bind]; done]
      end; done.
Qed.

Lemma rule_extension_stable_witness :
  (AQM_rule (AQM_handler "humidity") \/ PMM_rule (AQM_handler "humidity")) /\
  AQM_handler "humidity" [215; 455] <> Raise IndexError /\
  AQM_handler "humidity" ([215; 455] ++ [612; 12])
  = AQM_handler "humidity" [215; 455].
Proof.
  assert (AQM_rule (AQM_handler "humidity") \/ PMM_rule (AQM_handler "humidity"))
    as H1 by (left; exact humidity_rule).
  assert (AQM_handler "humidity" [215; 455] <> Raise IndexError) as H2
    by (intros H; discriminate H).
  refine (conj H1 (conj H2 _)).
  exact (rule_extension_stable (AQM_handler "humidity") [215; 455] [612; 12]
           H1 H2).
Defined.



(** X4: The scale rules lose nothing: two 16-bit registers that decode to the
    same float are the same register. *)
Theorem scale_rules_injective (h : handler) (i : nat) (k : Z)
    (r r' : list Z) (x x' : Z) :
  (h, i, k) ∈ scale_rules ->
  r !! i = Some x -> r' !! i = Some x' -> u16 x -> u16 x' ->
  h r = h r' -> x = x'.
Proof.
  intros Hin Hx Hx' Hu Hu' Heq.
  assert (k = 1 \/ k = 2) as Hk.
  { unfold scale_rules in Hin.
    repeat (apply elem_of_cons in Hin as [Hin|Hin]; [injection Hin as _ _ ->; lia|]).
    by apply elem_of_nil in Hin. }
  destruct (scaled_handler_ok r i k x Hk (getitem_Some _ _ _ Hx) Hu)
    as (y & H1 & H2 & _ & H4).
  destruct (scaled_handler_ok r' i k x' Hk (getitem_Some _ _ _ Hx') Hu')
    as (y' & H1' & H2' & _ & H4').
  assert (h r = Ok (VFloat y) /\ h r' = Ok (VFloat y')) as [E E'].
  { unfold scale_rules in Hin.
    repeat (apply elem_of_cons in Hin as [Hin|Hin];
            [injection Hin as -> -> ->|]); [..|by apply elem_of_nil in Hin].
    - by rewrite !AQM_handler_temperature.
    - by rewrite !AQM_handler_humidity.
    - by rewrite !PMM_handler_voltage.
    - by rewrite !PMM_handler_current.
    - by rewrite !PMM_handler_power_factor.
    - by rewrite !PMM_handler_frequency. }
  rewrite E, E' in Heq. injection Heq as <-. congruence.
Qed.

Lemma scale_rules_injective_witness :
  (AQM_handler "humidity", 1%nat, 1) ∈ scale_rules /\
  [215; 455] !! 1%nat = Some 455 /\ [0; 455; 3] !! 1%nat = Some 455 /\
  u16 455 /\
  AQM_handler "humidity" [215; 455] = AQM_handler "humidity" [0; 455; 3] /\
  455 = 455.
Proof.
  assert ((AQM_handler "humidity", 1%nat, 1) ∈ scale_rules) as H1.
  { unfold scale_rules. apply elem_of_cons. right. apply elem_of_cons. by left. }
  assert (u16 455) as H2 by (unfold u16; lia).
  assert (AQM_handler "humidity" [215; 455]
          = AQM_handler "humidity" [0; 455; 3]) as H3 by reflexivity.
  refine (conj H1 (conj eq_refl (conj eq_refl (conj H2 (conj H3 _))))).
  exact (scale_rules_injective _ _ _ [215; 455] [0; 455; 3] 455 455
           H1 eq_refl eq_refl H2 H2 H3).
Defined.

(** ** The tables *)

(** X5: Every entry of [AQM_GENERIC_SENSOR_DEFINE] carries its own key as
    [sub_id], is a measurement, and is one of the seven entries
    [Aqm300.get_sub_entities] instantiates. *)
Theorem AQM_table_consistent (key : string) (conf : AqmConf.t) :
  AQM_GENERIC_SENSOR_DEFINE !! key = Some conf ->
  AqmConf.sub_id conf = key /\
  AqmConf.state_class conf = STATE_CLASS_MEASUREMENT /\
  key ∈ AQM_keys.
Proof.
  intros Hc. table_cases Hc; cbn; (split; [done|split; [done|]]);
    unfold AQM_keys; repeat (apply elem_of_cons; first [left; reflexivity|right]).
Qed.

Lemma AQM_table_consistent_witness :
  exists conf,
    AQM_GENERIC_SENSOR_DEFINE !! "tvoc" = Some conf /\
    AqmConf.sub_id conf = "tvoc".
Proof.
  eexists.
  eassert (AQM_GENERIC_SENSOR_DEFINE !! "tvoc" = Some _) as H by table_lookup.
  refine (conj H _).
  exact (proj1 (AQM_table_consistent "tvoc" _ H)).
Defined.

(** X6: Every entry of [PMM_GENERIC_SENSOR_DEFINE] carries its own key as
    [sub_id] and is one of the fourteen entries [Pmm300.get_sub_entities]
    instantiates; the entries of device class energy are exactly those
    measured in watt-hours, and exactly those that are not plain
    measurements. *)
Theorem PMM_table_consistent (key : string) (conf : PmmConfig.t) :
  PMM_GENERIC_SENSOR_DEFINE !! key = Some conf ->
  PmmConfig.sub_id conf = key /\
  key ∈ PMM_keys /\
  (PmmConfig.device_class conf = SensorDeviceClass.ENERGY <->
   PmmConfig.nuom conf = ENERGY_WATT_HOUR) /\
  (PmmConfig.device_class conf = SensorDeviceClass.ENERGY <->
   PmmConfig.state_class conf <> STATE_CLASS_MEASUREMENT).
Proof.
  intros Hc. table_cases Hc; cbn;
    (split; [done|split; [|split; split; intros; done]]);
    unfold PMM_keys; repeat (apply elem_of_cons; first [left; reflexivity|right]).
Qed.

Lemma PMM_table_consistent_witness :
  exists conf,
    PMM_GENERIC_SENSOR_DEFINE !! PMM_KEY_TOTAL = Some conf /\
    PmmConfig.sub_id conf = PMM_KEY_TOTAL.
Proof.
  eexists.
  eassert (PMM_GENERIC_SENSOR_DEFINE !! PMM_KEY_TOTAL = Some _) as H
    by table_lookup.
  refine (conj H _).
  exact (proj1 (PMM_table_consistent PMM_KEY_TOTAL _ H)).
Defined.

(** ** Building the entities of a device *)

Lemma Forall2_fmap_eq {A B C : Type} (f : B -> C) (g : A -> C) l es :
  Forall2 (fun k e => f e = g k) l es -> f <$> es = g <$> l.
Proof. induction 1 as [|k e l es Hke _ IH]; cbn; [done|]. by rewrite Hke, IH. Qed.

Lemma Forall2_Forall_r {A B : Type} (P : A -> B -> Prop) (Q : B -> Prop) l es :
  Forall2 P l es -> (forall k e, P k e -> Q e) -> Forall Q es.
Proof. induction 1; intros HPQ; constructor; eauto. Qed.

Lemma pmm_unique_id_inj p s1 s2 :
  pmm_unique_id p s1 = pmm_unique_id p s2 -> s1 = s2.
Proof. unfold pmm_unique_id. intros H. by do 4 apply append_inj_l in H. Qed.

Lemma name_or_inj name (uid : string -> string) s1 s2 :
  (forall a b, uid a = uid b -> a = b) ->
  name_or name s1 (uid s1) = name_or name s2 (uid s2) -> s1 = s2.
Proof.
  intros Huid. destruct name as [[|c n]|]; cbn [name_or]; [by apply Huid| |by apply Huid].
  intros H. apply (append_inj_l (String c n)) in H.
  by apply (append_inj_l " #") in H.
Qed.

Lemma PMM_lookup key :
  key ∈ PMM_keys ->
  exists conf,
    PMM_GENERIC_SENSOR_DEFINE !! key = Some conf /\ PmmConfig.sub_id conf = key.
Proof.
  intros Hkey. unfold PMM_keys in Hkey.
  repeat (apply elem_of_cons in Hkey as [->|Hkey];
          [eexists; split; [table_lookup|reflexivity]|]).
  by apply elem_of_nil in Hkey.
Qed.

Lemma AQM_lookup key :
  key ∈ AQM_keys ->
  exists conf,
    AQM_GENERIC_SENSOR_DEFINE !! key = Some conf /\ AqmConf.sub_id conf = key /\
    (key, AqmConf.device_class conf) ∈ AQM_key_class.
Proof.
  intros Hkey. unfold AQM_keys in Hkey.
  repeat (apply elem_of_cons in Hkey as [->|Hkey];
          [eexists; split; [table_lookup|split; [reflexivity|]];
           cbn [AqmConf.device_class]; unfold AQM_key_class;
           repeat (apply elem_of_cons; first [left; reflexivity|right])|]).
  by apply elem_of_nil in Hkey.
Qed.

Lemma Pmm300_get_sub_entities_run st self p :
  proxies st !! self = Some p ->
  exists es,
    Pmm300_get_sub_entities self st = (Ok es, st) /\
    Forall2 (pmm_entity_of self p) PMM_keys es.
Proof.
  intros Hp. apply traverse_ok. intros key Hkey.
  destruct (PMM_lookup key Hkey) as (conf & Hc & Hs).
  unfold PmmVirtualSensor_init, lift, dict_get, get_proxy, ret, bindM.
  rewrite Hc. cbn beta iota. rewrite Hp. eexists. split; [reflexivity|].
  cbn. rewrite Hs. unfold pmm_entity_of, fresh_entity, pmm_unique_id. cbn.
  repeat split; eauto 10.
Qed.

Lemma Aqm300_get_sub_entities_run st self p :
  proxies st !! self = Some p ->
  exists es,
    Aqm300_get_sub_entities self st = (Ok es, st) /\
    Forall2 (aqm_entity_of self p) AQM_keys es.
Proof.
  intros Hp. apply traverse_ok. intros key Hkey.
  destruct (AQM_lookup key Hkey) as (conf & Hc & Hs & Hcl).
  unfold AqmVirtualSensor_init, lift, dict_get, get_proxy, ret, bindM.
  rewrite Hc. cbn beta iota. rewrite Hp. eexists. split; [reflexivity|].
  cbn. rewrite Hs. unfold aqm_entity_of, fresh_entity, aqm_unique_id. cbn.
  repeat split; eauto 10.
Qed.

(** X7: [Pmm300.get_sub_entities] builds fourteen entities and leaves the store
    as it is; the identifier of each ends in the key of its table entry,
    the fourteen identifiers are pairwise distinct, and the [name] property
    of each entity is that key. *)
Theorem pmm_unique_ids_distinct (st : Store) (self : nat) (p : SihasProxy.t) :
  proxies st !! self = Some p ->
  exists es,
    Pmm300_get_sub_entities self st = (Ok es, st) /\
    length es = 14%nat /\
    SensorEntity._attr_unique_id <$> es = pmm_unique_id p <$> PMM_keys /\
    NoDup (SensorEntity._attr_unique_id <$> es) /\
    PmmVirtualSensor_name <$> es = Some <$> PMM_keys.
Proof.
  intros Hp.
  destruct (Pmm300_get_sub_entities_run st self p Hp) as (es & Hes & HF).
  exists es. split; [exact Hes|].
  assert (SensorEntity._attr_unique_id <$> es = pmm_unique_id p <$> PMM_keys)
    as Hids.
  { apply Forall2_fmap_eq. eapply Forall2_impl; [exact HF|].
    intros key e (Hf & _). apply Hf. }
  split; [by rewrite <- (Forall2_length _ _ _ HF)|].
  split; [exact Hids|]. split.
  - rewrite Hids. apply NoDup_fmap_2_strong; [|exact PMM_keys_NoDup].
    intros s1 s2 _ _. apply pmm_unique_id_inj.
  - apply Forall2_fmap_eq. eapply Forall2_impl; [exact HF|].
    intros key e (_ & _ & Hn & _). exact Hn.
Qed.

Lemma pmm_unique_ids_distinct_witness :
  proxies sample_store !! 0%nat = Some sample_proxy /\
  exists es,
    Pmm300_get_sub_entities 0 sample_store = (Ok es, sample_store) /\
    length es = 14%nat /\
    NoDup (SensorEntity._attr_unique_id <$> es).
Proof.
  assert (proxies sample_store !! 0%nat = Some sample_proxy) as H1
    by reflexivity.
  refine (conj H1 _).
  destruct (pmm_unique_ids_distinct sample_store 0 sample_proxy H1)
    as (es & He & Hl & _ & Hn & _).
  exists es. exact (conj He (conj Hl Hn)).
Defined.

(** X8: The display names of the entities of one device are pairwise distinct,
    whether the proxy has a name (then they are [name #sub_id]) or not
    (then they are the unique identifiers). *)
Theorem entity_names_distinct (st : Store) (self : nat) (p : SihasProxy.t) :
  proxies st !! self = Some p ->
  (exists es, Pmm300_get_sub_entities self st = (Ok es, st) /\
              NoDup (SensorEntity._attr_name <$> es)) /\
  (exists es, Aqm300_get_sub_entities self st = (Ok es, st) /\
              NoDup (SensorEntity._attr_name <$> es)).
Proof.
  intros Hp. split.
  - destruct (Pmm300_get_sub_entities_run st self p Hp) as (es & Hes & HF).
    exists es. split; [exact Hes|].
    assert (SensorEntity._attr_name <$> es
            = (fun key => name_or (SihasProxy.name p) key (pmm_unique_id p key))
                <$> PMM_keys) as ->.
    { apply Forall2_fmap_eq. eapply Forall2_impl; [exact HF|].
      intros key e (Hf & _). apply Hf. }
    apply NoDup_fmap_2_strong; [|exact PMM_keys_NoDup].
    intros s1 s2 _ _. apply (name_or_inj _ (pmm_unique_id p)).
    intros a b. apply pmm_unique_id_inj.
  - destruct (Aqm300_get_sub_entities_run st self p Hp) as (es & Hes & HF).
    exists es. split; [exact Hes|].
    assert (Forall2 (fun kc e =>
                       SensorEntity._attr_name e
                       = name_or (SihasProxy.name p) kc.1
                           (aqm_unique_id p kc.2)) AQM_key_class es) as HF'.
    { unfold AQM_keys in HF. unfold AQM_key_class.
      repeat match goal with
             | H : Forall2 _ (_ :: _) _ |- _ =>
                 apply Forall2_cons_inv_l in H
                   as (? & ? & ((_ & _ & _ & _ & ?) & _ & _ & ? & _) & ? & ->)
             | H : Forall2 _ [] _ |- _ => apply Forall2_nil_inv_l in H as ->
             end.
      repeat match goal with
             | H : (_, SensorEntity._attr_device_class _) ∈ _ |- _ =>
                 unfold AQM_key_class in H;
                 repeat (apply elem_of_cons in H as [H|H];
                         [first [discriminate H|injection H as H]|]);
                 try by apply elem_of_nil in H
             end.
      repeat match goal with
             | H : SensorEntity._attr_device_class _ = _ |- _ =>
                 rewrite H in *; clear H
             end.
      repeat (constructor; [done|]). constructor. }
    apply Forall2_fmap_eq in HF'. rewrite HF'.
    apply NoDup_fmap_2_strong; [|unfold AQM_key_class; solve_NoDup].
    intros [k1 c1] [k2 c2] H1 H2 Heq. cbn [fst snd] in Heq.
    destruct (SihasProxy.name p) as [[|c n]|]; cbn [name_or] in Heq.
    + apply aqm_unique_id_inj in Heq as ->.
      unfold AQM_key_class in H1, H2.
      repeat (apply elem_of_cons in H1 as [H1|H1];
              [injection H1 as -> ?|]); [..|by apply elem_of_nil in H1];
        repeat (apply elem_of_cons in H2 as [H2|H2];
                [injection H2 as -> ?|]); try (by apply elem_of_nil in H2);
        congruence.
    + apply (append_inj_l (String c n)) in Heq.
      apply (append_inj_l " #") in Heq. subst k2.
      unfold AQM_key_class in H1, H2.
      repeat (apply elem_of_cons in H1 as [H1|H1];
              [injection H1 as ? ->|]); [..|by apply elem_of_nil in H1];
        repeat (apply elem_of_cons in H2 as [H2|H2];
                [injection H2 as ? ->|]); try (by apply elem_of_nil in H2);
        congruence.
    + apply aqm_unique_id_inj in Heq as ->.
      unfold AQM_key_class in H1, H2.
      repeat (apply elem_of_cons in H1 as [H1|H1];
              [injection H1 as -> ?|]); [..|by apply elem_of_nil in H1];
        repeat (apply elem_of_cons in H2 as [H2|H2];
                [injection H2 as -> ?|]); try (by apply elem_of_nil in H2);
        congruence.
Qed.

Lemma entity_names_distinct_witness :
  proxies sample_store !! 0%nat = Some sample_proxy /\
  exists es, Aqm300_get_sub_entities 0 sample_store = (Ok es, sample_store) /\
             NoDup (SensorEntity._attr_name <$> es).
Proof.
  assert (proxies sample_store !! 0%nat = Some sample_proxy) as H1
    by reflexivity.
  refine (conj H1 _).
  exact (proj2 (entity_names_distinct sample_store 0 sample_proxy H1)).
Defined.

(** ** Setting up a PMM or an AQM entry *)

Lemma eq_str_refl s : eq_str (CStr s) s = true.
Proof. unfold eq_str. by apply bool_decide_eq_true_2. Qed.

Lemma eq_str_true t s : eq_str t s = true -> t = CStr s.
Proof.
  destruct t as [s'|z]; cbn; [|done].
  intros H. apply bool_decide_eq_true_1 in H. by subst.
Qed.

Lemma bindM_dict_get {V B : Type} (d : gmap string V) k v (K : V -> M B) st :
  d !! k = Some v -> bindM (lift (dict_get d k)) K st = K v st.
Proof. intros Hd. unfold bindM, lift, dict_get. by rewrite Hd. Qed.

Lemma bindM_dict_get_None {V B : Type} (d : gmap string V) k (K : V -> M B) st :
  d !! k = None -> bindM (lift (dict_get d k)) K st = (Raise KeyError, st).
Proof. intros Hd. unfold bindM, lift, dict_get. by rewrite Hd. Qed.

Lemma store_wf_appends st ps es :
  store_wf st ->
  Forall (fun e => (SensorEntity._proxy e < length (proxies st ++ ps))%nat) es ->
  store_wf (mkStore (proxies st ++ ps) (entities st ++ es)).
Proof.
  unfold store_wf. cbn. intros Hwf Hes.
  apply Forall_app. split; [|done].
  eapply Forall_impl; [exact Hwf|]. cbn. intros e He.
  rewrite length_app. lia.
Qed.

Section Setup.

Variable SihasProxy_init :
  conf_val -> conf_val -> conf_val -> conf_val -> SihasProxy.t.
Variables CONF_TYPE CONF_IP CONF_MAC CONF_CFG : string.

Local Notation "'setup'" :=
  (async_setup_entry SihasProxy_init CONF_TYPE CONF_IP CONF_MAC CONF_CFG).

Lemma setup_pmm_run entry st ip mac cfg :
  data entry !! CONF_TYPE = Some (CStr "PMM") ->
  data entry !! CONF_IP = Some ip ->
  data entry !! CONF_MAC = Some mac ->
  data entry !! CONF_CFG = Some cfg ->
  let p := with_name_device (SihasProxy_init ip mac (CStr "PMM") cfg) None
             (Some (Device.init "PMM300" entry)) in
  exists es,
    setup entry st = (Ok tt, mkStore (proxies st ++ [p]) (entities st ++ es)) /\
    Forall2 (pmm_entity_of (length (proxies st)) p) PMM_keys es.
Proof.
  intros Ht Hip Hmac Hcfg p.
  destruct (Pmm300_get_sub_entities_run
              (mkStore (proxies st ++ [p]) (entities st))
              (length (proxies st)) p) as (es & Hes & HF).
  { cbn. by apply list_lookup_middle. }
  exists es. split; [|exact HF].
  unfold async_setup_entry.
  rewrite (bindM_dict_get _ _ _ _ _ Ht), eq_str_refl.
  rewrite (bindM_dict_get _ _ _ _ _ Hip), (bindM_dict_get _ _ _ _ _ Hmac),
    (bindM_dict_get _ _ _ _ _ Ht), (bindM_dict_get _ _ _ _ _ Hcfg).
  unfold bindM at 1. unfold Pmm300_init, new_proxy.
  fold (with_name_device (SihasProxy_init ip mac (CStr "PMM") cfg) None
          (Some (Device.init "PMM300" entry))). fold p.
  unfold bindM. rewrite Hes. reflexivity.
Qed.

Lemma setup_aqm_run entry st ip mac cfg :
  data entry !! CONF_TYPE = Some (CStr "AQM") ->
  data entry !! CONF_IP = Some ip ->
  data entry !! CONF_MAC = Some mac ->
  data entry !! CONF_CFG = Some cfg ->
  let p0 := SihasProxy_init ip mac (CStr "AQM") cfg in
  let p := with_name_device p0 None (SihasProxy._device p0) in
  exists es,
    setup entry st = (Ok tt, mkStore (proxies st ++ [p]) (entities st ++ es)) /\
    Forall2 (aqm_entity_of (length (proxies st)) p) AQM_keys es.
Proof.
  intros Ht Hip Hmac Hcfg p0 p.
  destruct (Aqm300_get_sub_entities_run
              (mkStore (proxies st ++ [p]) (entities st))
              (length (proxies st)) p) as (es & Hes & HF).
  { cbn. by apply list_lookup_middle. }
  exists es. split; [|exact HF].
  unfold async_setup_entry.
  rewrite (bindM_dict_get _ _ _ _ _ Ht), (eq_str_false _ "PMM") by done.
  rewrite (bindM_dict_get _ _ _ _ _ Ht), eq_str_refl.
  rewrite (bindM_dict_get _ _ _ _ _ Hip), (bindM_dict_get _ _ _ _ _ Hmac),
    (bindM_dict_get _ _ _ _ _ Ht), (bindM_dict_get _ _ _ _ _ Hcfg).
  unfold bindM at 1. unfold Aqm300_init, new_proxy.
  fold p0. fold (with_name_device p0 None (SihasProxy._device p0)). fold p.
  unfold bindM. rewrite Hes. reflexivity.
Qed.

(** X9: A PMM entry with its four keys: [async_setup_entry] returns normally,
    adds one proxy at the end of the store (without a name, bound to the
    device [PMM300] of the entry) and fourteen entities after the existing
    ones.  Each new entity refers to the new proxy, copies its availability,
    has no native value yet, is named by its unique identifier and carries
    the device. *)
Theorem setup_pmm_adds_device (entry : ConfigEntry) (st : Store)
    (ip mac cfg : conf_val) :
  data entry !! CONF_TYPE = Some (CStr "PMM") ->
  data entry !! CONF_IP = Some ip ->
  data entry !! CONF_MAC = Some mac ->
  data entry !! CONF_CFG = Some cfg ->
  let p0 := SihasProxy_init ip mac (CStr "PMM") cfg in
  exists p es,
    setup entry st = (Ok tt, mkStore (proxies st ++ [p]) (entities st ++ es)) /\
    p = with_name_device p0 None (Some (Device.init "PMM300" entry)) /\
    length es = 14%nat /\
    Forall (fun e =>
              SensorEntity._proxy e = length (proxies st) /\
              SensorEntity._attr_available e = SihasProxy._attr_available p0 /\
              SensorEntity._attr_native_value e = None /\
              SensorEntity._attr_name e = SensorEntity._attr_unique_id e /\
              SensorEntity._device e = Some (Device.init "PMM300" entry)) es.
Proof.
  intros Ht Hip Hmac Hcfg p0.
  destruct (setup_pmm_run entry st ip mac cfg Ht Hip Hmac Hcfg)
    as (es & Hrun & HF).
  eexists _, es. split; [exact Hrun|]. split; [reflexivity|].
  split; [by rewrite <- (Forall2_length _ _ _ HF)|].
  eapply Forall2_Forall_r; [exact HF|].
  intros key e ((H1 & H2 & H3 & H4 & H5) & H6 & _).
  cbn in H2, H5, H6. rewrite H5, H4. done.
Qed.

(** X10: An AQM entry with its four keys: [async_setup_entry] returns normally,
    adds one proxy at the end of the store (without a name) and seven
    entities after the existing ones.  Each new entity refers to the new
    proxy, copies its availability, has no native value yet, is named by
    its unique identifier and carries no device. *)
Theorem setup_aqm_adds_device (entry : ConfigEntry) (st : Store)
    (ip mac cfg : conf_val) :
  data entry !! CONF_TYPE = Some (CStr "AQM") ->
  data entry !! CONF_IP = Some ip ->
  data entry !! CONF_MAC = Some mac ->
  data entry !! CONF_CFG = Some cfg ->
  let p0 := SihasProxy_init ip mac (CStr "AQM") cfg in
  exists p es,
    setup entry st = (Ok tt, mkStore (proxies st ++ [p]) (entities st ++ es)) /\
    p = with_name_device p0 None (SihasProxy._device p0) /\
    length es = 7%nat /\
    Forall (fun e =>
              SensorEntity._proxy e = length (proxies st) /\
              SensorEntity._attr_available e = SihasProxy._attr_available p0 /\
              SensorEntity._attr_native_value e = None /\
              SensorEntity._attr_name e = SensorEntity._attr_unique_id e /\
              SensorEntity._device e = None) es.
Proof.
  intros Ht Hip Hmac Hcfg p0.
  destruct (setup_aqm_run entry st ip mac cfg Ht Hip Hmac Hcfg)
    as (es & Hrun & HF).
  eexists _, es. split; [exact Hrun|]. split; [reflexivity|].
  split; [by rewrite <- (Forall2_length _ _ _ HF)|].
  eapply Forall2_Forall_r; [exact HF|].
  intros key e ((H1 & H2 & H3 & H4 & H5) & H6 & _).
  cbn in H2, H5. rewrite H5, H4. done.
Qed.

(** X11: Every entity a PMM entry sets up describes the same device: the
    identifier pair [("PMM300", "PMM300_<entry id>")] with the fixed name,
    firmware version, model and manufacturer; and its [name] property is
    one of the fourteen keys. *)
Theorem setup_pmm_device_info (entry : ConfigEntry) (st : Store)
    (ip mac cfg : conf_val) (e : SensorEntity.t) :
  data entry !! CONF_TYPE = Some (CStr "PMM") ->
  data entry !! CONF_IP = Some ip ->
  data entry !! CONF_MAC = Some mac ->
  data entry !! CONF_CFG = Some cfg ->
  e ∈ drop (length (entities st)) (entities (snd (setup entry st))) ->
  PmmVirtualSensor_device_info e = Some (PMM300_device_info entry) /\
  exists key, key ∈ PMM_keys /\ PmmVirtualSensor_name e = Some key.
Proof.
  intros Ht Hip Hmac Hcfg.
  destruct (setup_pmm_run entry st ip mac cfg Ht Hip Hmac Hcfg)
    as (es & -> & HF).
  cbn [snd entities]. rewrite drop_app_length. intros He.
  apply list_elem_of_lookup in He as [i He].
  destruct (Forall2_lookup_r _ _ _ _ _ HF He) as (key & Hkey & Hke).
  destruct Hke as (_ & Hd & Hn & _). cbn in Hd.
  split.
  - unfold PmmVirtualSensor_device_info. by rewrite Hd.
  - exists key. split; [by eapply list_elem_of_lookup_2|exact Hn].
Qed.

Lemma setup_no_type (entry : ConfigEntry) (st : Store) :
  data entry !! CONF_TYPE = None -> setup entry st = (Raise KeyError, st).
Proof.
  intros Ht. unfold async_setup_entry.
  by rewrite (bindM_dict_get_None _ _ _ _ Ht).
Qed.

Lemma setup_no_args (entry : ConfigEntry) (st : Store) (t : conf_val) :
  data entry !! CONF_TYPE = Some t ->
  t = CStr "PMM" \/ t = CStr "AQM" ->
  data entry !! CONF_IP = None \/ data entry !! CONF_MAC = None \/
  data entry !! CONF_CFG = None ->
  setup entry st = (Raise KeyError, st).
Proof.
  intros Ht Htype Hk. unfold async_setup_entry.
  assert (forall B (K : conf_val -> conf_val -> conf_val -> conf_val -> M B),
            (ip <~ lift (dict_get (data entry) CONF_IP) ;;
             mac <~ lift (dict_get (data entry) CONF_MAC) ;;
             device_type <~ lift (dict_get (data entry) CONF_TYPE) ;;
             config <~ lift (dict_get (data entry) CONF_CFG) ;;
             K ip mac device_type config) st = (Raise KeyError, st)) as Hargs.
  { intros B K.
    destruct (data entry !! CONF_IP) as [ip|] eqn:Hip;
      [rewrite (bindM_dict_get _ _ _ _ _ Hip)
      |by rewrite (bindM_dict_get_None _ _ _ _ Hip)].
    destruct (data entry !! CONF_MAC) as [mac|] eqn:Hmac;
      [rewrite (bindM_dict_get _ _ _ _ _ Hmac)
      |by rewrite (bindM_dict_get_None _ _ _ _ Hmac)].
    rewrite (bindM_dict_get _ _ _ _ _ Ht).
    destruct (data entry !! CONF_CFG) as [cfg|] eqn:Hcfg;
      [|by rewrite (bindM_dict_get_None _ _ _ _ Hcfg)].
    destruct Hk as [Hk|[Hk|Hk]]; discriminate Hk. }
  rewrite (bindM_dict_get _ _ _ _ _ Ht). destruct Htype as [-> | ->].
  - rewrite eq_str_refl.
    exact (Hargs _ (fun ip mac device_type config =>
             pmm <~ Pmm300_init SihasProxy_init (Device.init "PMM300" entry)
                      ip mac device_type config None ;;
             es <~ Pmm300_get_sub_entities pmm ;; async_add_entities es)).
  - rewrite (eq_str_false _ "PMM") by done.
    rewrite (bindM_dict_get _ _ _ _ _ Ht), eq_str_refl.
    exact (Hargs _ (fun ip mac device_type config =>
             aqm <~ Aqm300_init SihasProxy_init ip mac device_type config None ;;
             es <~ Aqm300_get_sub_entities aqm ;; async_add_entities es)).
Qed.

(** X12: A missing key: when the entry has no type, or has type PMM or AQM and
    lacks the address, the MAC or the configuration, [async_setup_entry]
    raises [KeyError] and the store is as before. *)
Theorem setup_missing_key (entry : ConfigEntry) (st : Store) :
  data entry !! CONF_TYPE = None \/
  ((data entry !! CONF_TYPE = Some (CStr "PMM") \/
    data entry !! CONF_TYPE = Some (CStr "AQM")) /\
   (data entry !! CONF_IP = None \/ data entry !! CONF_MAC = None \/
    data entry !! CONF_CFG = None)) ->
  setup entry st = (Raise KeyError, st).
Proof.
  intros [Ht|[[Ht|Ht] Hk]].
  - by apply setup_no_type.
  - apply (setup_no_args entry st (CStr "PMM")); auto.
  - apply (setup_no_args entry st (CStr "AQM")); auto.
Qed.

Lemma setup_appends (entry : ConfigEntry) (st : Store) :
  exists ps es,
    snd (setup entry st) = mkStore (proxies st ++ ps) (entities st ++ es) /\
    Forall (fun e => (SensorEntity._proxy e < length (proxies st ++ ps))%nat) es.
Proof.
  assert (forall r : result unit * Store, snd r = st ->
            exists ps es,
              snd r = mkStore (proxies st ++ ps) (entities st ++ es) /\
              Forall (fun e => (SensorEntity._proxy e
                                < length (proxies st ++ ps))%nat) es) as Hsame.
  { intros r ->. exists [], []. rewrite !app_nil_r. by destruct st. }
  assert (forall p es,
            Forall (fun e => SensorEntity._proxy e = length (proxies st)) es ->
            Forall (fun e => (SensorEntity._proxy e
                              < length (proxies st ++ [p]))%nat) es) as Hnew.
  { intros p es Hes. eapply Forall_impl; [exact Hes|]. cbn.
    intros e ->. rewrite length_app. cbn. lia. }
  destruct (data entry !! CONF_TYPE) as [t|] eqn:Ht;
    [|apply Hsame; by rewrite (setup_no_type entry st)].
  destruct (eq_str t "PMM") eqn:Hpmm; [|destruct (eq_str t "AQM") eqn:Haqm].
  - apply eq_str_true in Hpmm as ->.
    destruct (data entry !! CONF_IP) as [ip|] eqn:Hip;
      [|apply Hsame; rewrite (setup_no_args entry st _ Ht); auto].
    destruct (data entry !! CONF_MAC) as [mac|] eqn:Hmac;
      [|apply Hsame; rewrite (setup_no_args entry st _ Ht); auto].
    destruct (data entry !! CONF_CFG) as [cfg|] eqn:Hcfg;
      [|apply Hsame; rewrite (setup_no_args entry st _ Ht); auto].
    destruct (setup_pmm_run entry st ip mac cfg Ht Hip Hmac Hcfg)
      as (es & -> & HF).
    eexists _, es. split; [reflexivity|]. apply Hnew.
    eapply Forall2_Forall_r; [exact HF|]. by intros key e ((H1 & _) & _).
  - apply eq_str_true in Haqm as ->.
    destruct (data entry !! CONF_IP) as [ip|] eqn:Hip;
      [|apply Hsame; rewrite (setup_no_args entry st _ Ht); auto].
    destruct (data entry !! CONF_MAC) as [mac|] eqn:Hmac;
      [|apply Hsame; rewrite (setup_no_args entry st _ Ht); auto].
    destruct (data entry !! CONF_CFG) as [cfg|] eqn:Hcfg;
      [|apply Hsame; rewrite (setup_no_args entry st _ Ht); auto].
    destruct (setup_aqm_run entry st ip mac cfg Ht Hip Hmac Hcfg)
      as (es & -> & HF).
    eexists _, es. split; [reflexivity|]. apply Hnew.
    eapply Forall2_Forall_r; [exact HF|]. by intros key e ((H1 & _) & _).
  - apply Hsame. unfold async_setup_entry.
    by rewrite (bindM_dict_get _ _ _ _ _ Ht), Hpmm,
      (bindM_dict_get _ _ _ _ _ Ht), Haqm.
Qed.

(** X13: [async_setup_entry] keeps the store well formed, whatever the entry and
    whatever the outcome: it removes nothing, and every entity it adds
    refers to the proxy it adds. *)
Theorem setup_preserves_wf (entry : ConfigEntry) (st : Store) :
  store_wf st ->
  store_wf (snd (setup entry st)) /\
  (exists ps es, proxies (snd (setup entry st)) = proxies st ++ ps /\
                 entities (snd (setup entry st)) = entities st ++ es).
Proof.
  intros Hwf. destruct (setup_appends entry st) as (ps & es & -> & Hes).
  split; [by apply store_wf_appends|]. by exists ps, es.
Qed.

End Setup.

Lemma setup_pmm_adds_device_witness :
  data sample_pmm_entry !! "type" = Some (CStr "PMM") /\
  data sample_pmm_entry !! "ip" = Some (CStr "192.168.0.20") /\
  data sample_pmm_entry !! "mac" = Some (CStr "a8:2b:d6:00:00:01") /\
  data sample_pmm_entry !! "cfg" = Some (CInt 0) /\
  exists p es,
    sample_setup "PMM" = (Ok tt, mkStore ([] ++ [p]) ([] ++ es)) /\
    length es = 14%nat.
Proof.
  assert (data sample_pmm_entry !! "type" = Some (CStr "PMM")) as H1
    by reflexivity.
  assert (data sample_pmm_entry !! "ip" = Some (CStr "192.168.0.20")) as H2
    by reflexivity.
  assert (data sample_pmm_entry !! "mac" = Some (CStr "a8:2b:d6:00:00:01"))
    as H3 by reflexivity.
  assert (data sample_pmm_entry !! "cfg" = Some (CInt 0)) as H4 by reflexivity.
  refine (conj H1 (conj H2 (conj H3 (conj H4 _)))).
  destruct (setup_pmm_adds_device sample_init "type" "ip" "mac" "cfg"
              sample_pmm_entry empty_store _ _ _ H1 H2 H3 H4)
    as (p & es & Hrun & _ & Hlen & _).
  exists p, es. exact (conj Hrun Hlen).
Defined.

Lemma setup_aqm_adds_device_witness :
  data (sample_entry "AQM") !! "type" = Some (CStr "AQM") /\
  data (sample_entry "AQM") !! "ip" = Some (CStr "192.168.0.20") /\
  data (sample_entry "AQM") !! "mac" = Some (CStr "a8:2b:d6:00:00:01") /\
  data (sample_entry "AQM") !! "cfg" = Some (CInt 0) /\
  exists p es,
    sample_setup "AQM" = (Ok tt, mkStore ([] ++ [p]) ([] ++ es)) /\
    length es = 7%nat.
Proof.
  assert (data (sample_entry "AQM") !! "type" = Some (CStr "AQM")) as H1
    by reflexivity.
  assert (data (sample_entry "AQM") !! "ip" = Some (CStr "192.168.0.20")) as H2
    by reflexivity.
  assert (data (sample_entry "AQM") !! "mac" = Some (CStr "a8:2b:d6:00:00:01"))
    as H3 by reflexivity.
  assert (data (sample_entry "AQM") !! "cfg" = Some (CInt 0)) as H4
    by reflexivity.
  refine (conj H1 (conj H2 (conj H3 (conj H4 _)))).
  destruct (setup_aqm_adds_device sample_init "type" "ip" "mac" "cfg"
              (sample_entry "AQM") empty_store _ _ _ H1 H2 H3 H4)
    as (p & es & Hrun & _ & Hlen & _).
  exists p, es. exact (conj Hrun Hlen).
Defined.

Lemma setup_pmm_device_info_witness :
  data sample_pmm_entry !! "type" = Some (CStr "PMM") /\
  data sample_pmm_entry !! "ip" = Some (CStr "192.168.0.20") /\
  data sample_pmm_entry !! "mac" = Some (CStr "a8:2b:d6:00:00:01") /\
  data sample_pmm_entry !! "cfg" = Some (CInt 0) /\
  sample_power ∈ drop (length (entities empty_store))
                   (entities (snd (sample_setup "PMM"))) /\
  PmmVirtualSensor_device_info sample_power
  = Some (PMM300_device_info sample_pmm_entry).
Proof.
  assert (data sample_pmm_entry !! "type" = Some (CStr "PMM")) as H1
    by reflexivity.
  assert (data sample_pmm_entry !! "ip" = Some (CStr "192.168.0.20")) as H2
    by reflexivity.
  assert (data sample_pmm_entry !! "mac" = Some (CStr "a8:2b:d6:00:00:01"))
    as H3 by reflexivity.
  assert (data sample_pmm_entry !! "cfg" = Some (CInt 0)) as H4 by reflexivity.
  assert (sample_power ∈ drop (length (entities empty_store))
                           (entities (snd (sample_setup "PMM")))) as H5
    by (apply (list_elem_of_lookup_2 _ 0%nat); reflexivity).
  refine (conj H1 (conj H2 (conj H3 (conj H4 (conj H5 _))))).
  exact (proj1 (setup_pmm_device_info sample_init "type" "ip" "mac" "cfg"
                  sample_pmm_entry empty_store _ _ _ sample_power
                  H1 H2 H3 H4 H5)).
Defined.

Lemma setup_missing_key_witness :
  (data (sample_entry "AQM") !! "type" = None \/
   ((data (sample_entry "AQM") !! "type" = Some (CStr "PMM") \/
     data (sample_entry "AQM") !! "type" = Some (CStr "AQM")) /\
    (data (sample_entry "AQM") !! "host" = None \/
     data (sample_entry "AQM") !! "mac" = None \/
     data (sample_entry "AQM") !! "cfg" = None))) /\
  async_setup_entry sample_init "type" "host" "mac" "cfg" (sample_entry "AQM")
    sample_store
  = (Raise KeyError, sample_store).
Proof.
  assert (data (sample_entry "AQM") !! "type" = None \/
          ((data (sample_entry "AQM") !! "type" = Some (CStr "PMM") \/
            data (sample_entry "AQM") !! "type" = Some (CStr "AQM")) /\
           (data (sample_entry "AQM") !! "host" = None \/
            data (sample_entry "AQM") !! "mac" = None \/
            data (sample_entry "AQM") !! "cfg" = None))) as H1.
  { right. split; [right; reflexivity|left; reflexivity]. }
  refine (conj H1 _).
  exact (setup_missing_key sample_init "type" "host" "mac" "cfg"
           (sample_entry "AQM") sample_store H1).
Defined.

Lemma setup_preserves_wf_witness :
  store_wf empty_store /\ store_wf sample_store.
Proof.
  assert (store_wf empty_store) as H1 by apply Forall_nil_2.
  refine (conj H1 _).
  exact (proj1 (setup_preserves_wf sample_init "type" "ip" "mac" "cfg"
                  (sample_entry "AQM") empty_store H1)).
Defined.

Lemma setup_wf init CONF_TYPE CONF_IP CONF_MAC CONF_CFG entry st :
  store_wf st ->
  store_wf (snd (async_setup_entry init CONF_TYPE CONF_IP CONF_MAC CONF_CFG
                   entry st)).
Proof.
  intros Hwf.
  destruct (setup_appends init CONF_TYPE CONF_IP CONF_MAC CONF_CFG entry st)
    as (ps & es & -> & Hes).
  by apply store_wf_appends.
Qed.

Lemma sample_store_wf : store_wf sample_store.
Proof. apply setup_wf. apply Forall_nil_2. Qed.

(** ** More on refreshing *)

Lemma update_no_entity cls poll st self :
  entities st !! self = None -> update cls poll self st = (Raise KeyError, st).
Proof.
  intros He. rewrite update_classes.
  unfold PmmVirtualSensor_update, bindM, get_entity. by rewrite He.
Qed.

Lemma store_wf_proxy st self e :
  store_wf st -> entities st !! self = Some e ->
  exists p, proxies st !! SensorEntity._proxy e = Some p.
Proof.
  intros Hwf He. apply lookup_lt_is_Some_2.
  exact (Forall_lookup_1 _ _ _ _ Hwf He).
Qed.

Lemma rule_total (h : handler) (n : nat) (r : list Z) :
  (AQM_rule h /\ n = 7%nat) \/ (PMM_rule h /\ n = 42%nat) ->
  (n <= length r)%nat -> Forall u16 r -> exists v, h r = Ok v.
Proof.
  intros Hh Hn Hr.
  assert (forall i, (i < n)%nat -> exists x, getitem r i = Ok x /\ u16 x) as Hget.
  { intros i Hi. destruct (getitem_lt r i) as (x & _ & Hx); [lia|].
    exists x. split; [done|]. by apply (getitem_u16 r i). }
  destruct Hh as [[(key & conf & Hc & ->) ->]|[(key & conf & Hc & ->) ->]];
    table_cases Hc; cbn [AqmConf.value_handler PmmConfig.value_handler];
    repeat match goal with
      | |- context [getitem r ?i] =>
          let x := fresh "x" in let Hx := fresh "Hx" in let Hu := fresh "Hu" in
          destruct (Hget i) as (x & Hx & Hu); [lia|]; rewrite Hx; cbn [bind]
      end; eauto;
    match goal with
    | Hu : u16 ?x |- context [int_truediv ?x 10] =>
        destruct (scale_ok 1 x) as (y & H1 & H2 & _); [by left|done|];
        change (10 ^ 1) with 10 in H1; rewrite H1; cbn [bind]; rewrite ?H2
    | Hu : u16 ?x |- context [int_truediv ?x 100] =>
        destruct (scale_ok 2 x) as (y & H1 & H2 & _); [by right|done|];
        change (10 ^ 2) with 100 in H1; rewrite H1; cbn [bind]; rewrite ?H2
    end; cbn [bind]; eauto.
Qed.

(** X14: A refresh keeps the store well formed and neither adds nor removes a
    proxy or an entity, whatever its outcome. *)
Theorem refresh_preserves_wf (cls : sensor_class)
    (poll : SihasProxy.t -> SihasProxy.t) (st : Store) (self : nat) :
  store_wf st ->
  let st' := snd (update cls poll self st) in
  store_wf st' /\
  length (proxies st') = length (proxies st) /\
  length (entities st') = length (entities st).
Proof.
  intros Hwf st'. subst st'.
  destruct (entities st !! self) as [e|] eqn:He;
    [|by rewrite (update_no_entity cls poll st self He)].
  destruct (store_wf_proxy st self e Hwf He) as [p Hp].
  rewrite (update_run cls poll st self e p He Hp).
  unfold store_wf, polled_store in *.
  destruct (SensorEntity.value_handler e _) as [v|ex];
    cbn [snd proxies entities]; rewrite ?length_insert;
    (split; [|done]).
  - apply Forall_insert; [done|]. cbn.
    exact (Forall_lookup_1 _ _ _ _ Hwf He).
  - done.
Qed.

Lemma refresh_preserves_wf_witness :
  store_wf sample_store /\
  store_wf (snd (update AqmVirtualSensor poll_short 4 sample_store)).
Proof.
  assert (store_wf sample_store) as H1 by exact sample_store_wf.
  refine (conj H1 _).
  exact (proj1 (refresh_preserves_wf AqmVirtualSensor poll_short
                  sample_store 4 H1)).
Defined.

(** X15: In a well-formed store, the refresh of an entity whose handler is a
    rule of a table, after a poll that leaves at least seven (AQM) or
    forty-two (PMM) 16-bit registers, returns normally: the entity holds the
    decoded value and the availability of its proxy, and the proxy holds
    the result of the poll. *)
Theorem refresh_succeeds (cls : sensor_class)
    (poll : SihasProxy.t -> SihasProxy.t) (st : Store) (self : nat)
    (e : SensorEntity.t) (n : nat) :
  store_wf st ->
  entities st !! self = Some e ->
  (AQM_rule (SensorEntity.value_handler e) /\ n = 7%nat) \/
  (PMM_rule (SensorEntity.value_handler e) /\ n = 42%nat) ->
  (forall p, proxies st !! SensorEntity._proxy e = Some p ->
             (n <= length (SihasProxy.registers (poll p)))%nat /\
             Forall u16 (SihasProxy.registers (poll p))) ->
  exists p v,
    proxies st !! SensorEntity._proxy e = Some p /\
    SensorEntity.value_handler e (SihasProxy.registers (poll p)) = Ok v /\
    fst (update cls poll self st) = Ok tt /\
    entities (snd (update cls poll self st)) !! self
    = Some (refreshed e v (SihasProxy._attr_available (poll p))) /\
    proxies (snd (update cls poll self st)) !! SensorEntity._proxy e
    = Some (poll p).
Proof.
  intros Hwf He Hh Hpoll.
  destruct (store_wf_proxy st self e Hwf He) as [p Hp].
  destruct (Hpoll p Hp) as [Hn Hr].
  destruct (rule_total _ n _ Hh Hn Hr) as [v Hv].
  exists p, v. split; [done|]. split; [done|].
  rewrite (update_run cls poll st self e p He Hp), Hv. cbn.
  pose proof (lookup_lt_Some _ _ _ He). pose proof (lookup_lt_Some _ _ _ Hp).
  by rewrite !list_lookup_insert_eq.
Qed.

Lemma refresh_succeeds_witness :
  store_wf sample_store /\
  entities sample_store !! 4%nat = Some sample_humidity /\
  ((AQM_rule (SensorEntity.value_handler sample_humidity) /\ 7%nat = 7%nat) \/
   (PMM_rule (SensorEntity.value_handler sample_humidity) /\ 7%nat = 42%nat)) /\
  fst (update AqmVirtualSensor poll_unreachable 4 sample_store) = Ok tt.
Proof.
  assert (store_wf sample_store) as H1 by exact sample_store_wf.
  assert (entities sample_store !! 4%nat = Some sample_humidity) as H2
    by reflexivity.
  assert ((AQM_rule (SensorEntity.value_handler sample_humidity) /\ 7%nat = 7%nat) \/
          (PMM_rule (SensorEntity.value_handler sample_humidity) /\ 7%nat = 42%nat))
    as H3 by (left; split; [exact humidity_rule|reflexivity]).
  assert (forall p,
            proxies sample_store !! SensorEntity._proxy sample_humidity = Some p ->
            (7 <= length (SihasProxy.registers (poll_unreachable p)))%nat /\
            Forall u16 (SihasProxy.registers (poll_unreachable p))) as H4.
  { intros p Hp. change (Some sample_proxy = Some p) in Hp.
    injection Hp as <-. split; [simpl; lia|].
    repeat constructor; unfold u16; lia. }
  refine (conj H1 (conj H2 (conj H3 _))).
  destruct (refresh_succeeds AqmVirtualSensor poll_unreachable sample_store 4
              sample_humidity 7 H1 H2 H3 H4) as (p & v & _ & _ & Hok & _).
  exact Hok.
Defined.

(** X16: A refresh assigns the native value and the availability of its entity
    and nothing else of it: the proxy reference, the identifier, the name,
    the unit, the classes, the device and the handler are as [__init__]
    left them, whatever the outcome. *)
Theorem refresh_keeps_identity (cls : sensor_class)
    (poll : SihasProxy.t -> SihasProxy.t) (st : Store) (self : nat)
    (e : SensorEntity.t) :
  entities st !! self = Some e ->
  exists e',
    entities (snd (update cls poll self st)) !! self = Some e' /\
    SensorEntity._proxy e' = SensorEntity._proxy e /\
    SensorEntity._attr_unique_id e' = SensorEntity._attr_unique_id e /\
    SensorEntity._attr_name e' = SensorEntity._attr_name e /\
    SensorEntity._attr_native_unit_of_measurement e'
    = SensorEntity._attr_native_unit_of_measurement e /\
    SensorEntity._attr_device_class e' = SensorEntity._attr_device_class e /\
    SensorEntity._attr_state_class e' = SensorEntity._attr_state_class e /\
    SensorEntity._device e' = SensorEntity._device e /\
    SensorEntity._name e' = SensorEntity._name e /\
    SensorEntity.value_handler e' = SensorEntity.value_handler e.
Proof.
  intros He. pose proof (lookup_lt_Some _ _ _ He) as Hlt.
  destruct (proxies st !! SensorEntity._proxy e) as [p|] eqn:Hp.
  - rewrite (update_run cls poll st self e p He Hp).
    destruct (SensorEntity.value_handler e _) as [v|ex]; cbn [snd entities].
    + eexists. split; [by apply list_lookup_insert_eq|]. done.
    + exists e. done.
  - rewrite (update_dangling cls poll st self e He Hp). exists e. done.
Qed.

Lemma refresh_keeps_identity_witness :
  entities sample_store !! 4%nat = Some sample_humidity /\
  exists e',
    entities (snd (update AqmVirtualSensor poll_unreachable 4 sample_store))
      !! 4%nat = Some e' /\
    SensorEntity._attr_unique_id e' = "AQM-a8:2b:d6:00:00:01-humidity".
Proof.
  assert (entities sample_store !! 4%nat = Some sample_humidity) as H1
    by reflexivity.
  refine (conj H1 _).
  destruct (refresh_keeps_identity AqmVirtualSensor poll_unreachable
              sample_store 4 sample_humidity H1) as (e' & He' & _ & Hid & _).
  exists e'. exact (conj He' Hid).
Defined.

(** X17: When the poll is idempotent on the proxy of an entity, a second refresh
    of that entity leaves the whole store as the first left it, and has the
    same outcome. *)
Theorem refresh_idempotent (cls : sensor_class)
    (poll : SihasProxy.t -> SihasProxy.t) (st : Store) (self : nat)
    (e : SensorEntity.t) (p : SihasProxy.t) :
  entities st !! self = Some e ->
  proxies st !! SensorEntity._proxy e = Some p ->
  poll (poll p) = poll p ->
  update cls poll self (snd (update cls poll self st))
  = update cls poll self st.
Proof.
  intros He Hp Hpoll.
  pose proof (lookup_lt_Some _ _ _ He) as Hle.
  pose proof (lookup_lt_Some _ _ _ Hp) as Hlp.
  rewrite (update_run cls poll st self e p He Hp).
  destruct (SensorEntity.value_handler e (SihasProxy.registers (poll p)))
    as [v|ex] eqn:Hv; cbn [snd].
  - erewrite (update_run cls poll _ self
                (refreshed e v (SihasProxy._attr_available (poll p))) (poll p)).
    + cbn. rewrite Hpoll, Hv. cbn.
      by rewrite !list_insert_insert_eq.
    + cbn. by rewrite list_lookup_insert_eq.
    + cbn. by rewrite list_lookup_insert_eq.
  - unfold polled_store.
    erewrite (update_run cls poll _ self e (poll p)).
    + unfold polled_store. cbn. rewrite Hpoll, Hv.
      by rewrite list_insert_insert_eq.
    + done.
    + cbn. by rewrite list_lookup_insert_eq.
Qed.

Lemma refresh_idempotent_witness :
  entities sample_store !! 4%nat = Some sample_humidity /\
  proxies sample_store !! SensorEntity._proxy sample_humidity
  = Some sample_proxy /\
  poll_short (poll_short sample_proxy) = poll_short sample_proxy /\
  update AqmVirtualSensor poll_short 4
    (snd (update AqmVirtualSensor poll_short 4 sample_store))
  = update AqmVirtualSensor poll_short 4 sample_store.
Proof.
  assert (entities sample_store !! 4%nat = Some sample_humidity) as H1
    by reflexivity.
  assert (proxies sample_store !! SensorEntity._proxy sample_humidity
          = Some sample_proxy) as H2 by reflexivity.
  assert (poll_short (poll_short sample_proxy) = poll_short sample_proxy) as H3
    by reflexivity.
  refine (conj H1 (conj H2 (conj H3 _))).
  exact (refresh_idempotent AqmVirtualSensor poll_short sample_store 4
           sample_humidity sample_proxy H1 H2 H3).
Defined.

(** X18: The refreshes of two entities bound to different proxies commute: both
    orders leave the same store, and each refresh has the outcome it has
    when it runs alone. *)
Theorem refresh_commute (cls1 cls2 : sensor_class)
    (poll : SihasProxy.t -> SihasProxy.t) (st : Store) (a b : nat)
    (ea eb : SensorEntity.t) :
  store_wf st ->
  entities st !! a = Some ea -> entities st !! b = Some eb ->
  SensorEntity._proxy ea <> SensorEntity._proxy eb ->
  snd (update cls2 poll b (snd (update cls1 poll a st)))
  = snd (update cls1 poll a (snd (update cls2 poll b st))) /\
  fst (update cls2 poll b (snd (update cls1 poll a st)))
  = fst (update cls2 poll b st) /\
  fst (update cls1 poll a (snd (update cls2 poll b st)))
  = fst (update cls1 poll a st).
Proof.
  intros Hwf Ha Hb Hne.
  assert (a <> b) as Hab by (intros ->; congruence).
  destruct (store_wf_proxy st a ea Hwf Ha) as [pa Hpa].
  destruct (store_wf_proxy st b eb Hwf Hb) as [pb Hpb].
  rewrite (update_run cls1 poll st a ea pa Ha Hpa).
  rewrite (update_run cls2 poll st b eb pb Hb Hpb).
  unfold polled_store.
  destruct (SensorEntity.value_handler ea (SihasProxy.registers (poll pa)))
    as [va|xa] eqn:Hva;
    destruct (SensorEntity.value_handler eb (SihasProxy.registers (poll pb)))
    as [vb|xb] eqn:Hvb; cbn [snd fst];
    (erewrite (update_run cls2 poll _ b eb pb);
     [|cbn; by rewrite ?list_lookup_insert_ne
      |cbn; by rewrite ?list_lookup_insert_ne]);
    (erewrite (update_run cls1 poll _ a ea pa);
     [|cbn; by rewrite ?list_lookup_insert_ne
      |cbn; by rewrite ?list_lookup_insert_ne]);
    rewrite Hva, Hvb; unfold polled_store; cbn [snd fst proxies entities];
    (split; [|done]);
    f_equal;
    first [done
          |apply list_insert_insert_ne; congruence
          |symmetry; apply list_insert_insert_ne; congruence].
Qed.

Lemma refresh_commute_witness :
  store_wf two_device_store /\
  entities two_device_store !! 4%nat = Some sample_humidity /\
  entities two_device_store !! 7%nat = Some second_co2 /\
  SensorEntity._proxy sample_humidity <> SensorEntity._proxy second_co2 /\
  snd (update AqmVirtualSensor poll_short 7
         (snd (update AqmVirtualSensor poll_short 4 two_device_store)))
  = snd (update AqmVirtualSensor poll_short 4
           (snd (update AqmVirtualSensor poll_short 7 two_device_store))).
Proof.
  assert (store_wf two_device_store) as H1
    by exact (setup_wf sample_init "type" "ip" "mac" "cfg"
                (sample_entry "AQM") sample_store sample_store_wf).
  assert (entities two_device_store !! 4%nat = Some sample_humidity) as H2
    by reflexivity.
  assert (entities two_device_store !! 7%nat = Some second_co2) as H3
    by reflexivity.
  assert (SensorEntity._proxy sample_humidity
          <> SensorEntity._proxy second_co2) as H4 by (cbn; lia).
  refine (conj H1 (conj H2 (conj H3 (conj H4 _)))).
  exact (proj1 (refresh_commute AqmVirtualSensor AqmVirtualSensor poll_short
                  two_device_store 4 7 sample_humidity second_co2
                  H1 H2 H3 H4)).
Defined.

(** ** What the entities of an entry decode with *)

Section SetupRules.

Variable SihasProxy_init :
  conf_val -> conf_val -> conf_val -> conf_val -> SihasProxy.t.
Variables CONF_TYPE CONF_IP CONF_MAC CONF_CFG : string.

(** X19: Whatever the type of an entry with its four keys, every entity
    [async_setup_entry] adds decodes with a rule of a table: a rule of the
    PMM table when the type is PMM, of the AQM table when it is AQM (no
    entity is added for another type). *)
Theorem setup_entities_decode_by_table (entry : ConfigEntry) (st : Store)
    (t ip mac cfg : conf_val) (e : SensorEntity.t) :
  data entry !! CONF_TYPE = Some t ->
  data entry !! CONF_IP = Some ip ->
  data entry !! CONF_MAC = Some mac ->
  data entry !! CONF_CFG = Some cfg ->
  e ∈ drop (length (entities st))
        (entities (snd (async_setup_entry SihasProxy_init CONF_TYPE CONF_IP
                          CONF_MAC CONF_CFG entry st))) ->
  (t = CStr "PMM" /\ PMM_rule (SensorEntity.value_handler e)) \/
  (t = CStr "AQM" /\ AQM_rule (SensorEntity.value_handler e)).
Proof.
  intros Ht Hip Hmac Hcfg.
  destruct (eq_str t "PMM") eqn:Hpmm; [|destruct (eq_str t "AQM") eqn:Haqm].
  - apply eq_str_true in Hpmm as ->.
    destruct (setup_pmm_run SihasProxy_init _ _ _ _ entry st ip mac cfg
                Ht Hip Hmac Hcfg) as (es & -> & HF).
    cbn [snd entities]. rewrite drop_app_length. intros He.
    apply list_elem_of_lookup in He as [i He].
    destruct (Forall2_lookup_r _ _ _ _ _ HF He)
      as (key & _ & _ & _ & _ & conf & Hc & Hh & _).
    left. split; [done|]. by exists key, conf.
  - apply eq_str_true in Haqm as ->.
    destruct (setup_aqm_run SihasProxy_init _ _ _ _ entry st ip mac cfg
                Ht Hip Hmac Hcfg) as (es & -> & HF).
    cbn [snd entities]. rewrite drop_app_length. intros He.
    apply list_elem_of_lookup in He as [i He].
    destruct (Forall2_lookup_r _ _ _ _ _ HF He)
      as (key & _ & _ & _ & _ & _ & conf & Hc & Hh & _).
    right. split; [done|]. by exists key, conf.
  - unfold async_setup_entry.
    rewrite (bindM_dict_get _ _ _ _ _ Ht), Hpmm,
      (bindM_dict_get _ _ _ _ _ Ht), Haqm.
    cbn [snd ret]. rewrite drop_all. intros He. by apply elem_of_nil in He.
Qed.

End SetupRules.

Lemma setup_entities_decode_by_table_witness :
  data sample_pmm_entry !! "type" = Some (CStr "PMM") /\
  data sample_pmm_entry !! "ip" = Some (CStr "192.168.0.20") /\
  data sample_pmm_entry !! "mac" = Some (CStr "a8:2b:d6:00:00:01") /\
  data sample_pmm_entry !! "cfg" = Some (CInt 0) /\
  sample_power ∈ drop (length (entities empty_store))
                   (entities (snd (sample_setup "PMM"))) /\
  ((CStr "PMM" = CStr "PMM" /\
    PMM_rule (SensorEntity.value_handler sample_power)) \/
   (CStr "PMM" = CStr "AQM" /\
    AQM_rule (SensorEntity.value_handler sample_power))).
Proof.
  assert (data sample_pmm_entry !! "type" = Some (CStr "PMM")) as H1
    by reflexivity.
  assert (data sample_pmm_entry !! "ip" = Some (CStr "192.168.0.20")) as H2
    by reflexivity.
  assert (data sample_pmm_entry !! "mac" = Some (CStr "a8:2b:d6:00:00:01"))
    as H3 by reflexivity.
  assert (data sample_pmm_entry !! "cfg" = Some (CInt 0)) as H4 by reflexivity.
  assert (sample_power ∈ drop (length (entities empty_store))
                           (entities (snd (sample_setup "PMM")))) as H5
    by (apply (list_elem_of_lookup_2 _ 0%nat); reflexivity).
  refine (conj H1 (conj H2 (conj H3 (conj H4 (conj H5 _))))).
  exact (setup_entities_decode_by_table sample_init "type" "ip" "mac" "cfg"
           sample_pmm_entry empty_store _ _ _ _ sample_power
           H1 H2 H3 H4 H5).
Defined.

(** ** The device *)

(** X20: [Device.__init__] keeps the name it is given and derives the device
    identifier from the entry identifier: two entries with different
    identifiers give different device identifiers, and the descriptions
    their entities report differ. *)
Theorem device_id_injective (name : string) (c1 c2 : ConfigEntry) :
  entry_id c1 <> entry_id c2 ->
  Device_device_id (Device.init name c1)
  <> Device_device_id (Device.init name c2) /\
  Device_name (Device.init name c1) = name /\
  PMM300_device_info c1 <> PMM300_device_info c2.
Proof.
  intros Hne. split; [|split; [done|]].
  - unfold Device_device_id, Device.init. cbn. intros H.
    apply append_inj_l in H. apply (append_inj_l "_") in H. done.
  - intros H.
    assert (DeviceInfo.identifiers (PMM300_device_info c1)
            = DeviceInfo.identifiers (PMM300_device_info c2)) as Hid
      by (by rewrite H).
    cbn in Hid.
    assert (("PMM300"%string, ("PMM300_" +:+ entry_id c1)%string)
            ∈ ({[ ("PMM300"%string, ("PMM300_" +:+ entry_id c2)%string) ]}
                : gset (string * string))) as Hin
      by (rewrite <- Hid; by apply elem_of_singleton).
    apply elem_of_singleton in Hin. injection Hin as Hin.
    exact (Hne Hin).
Qed.

Lemma device_id_injective_witness :
  entry_id sample_pmm_entry <> entry_id other_entry /\
  Device_device_id (Device.init "PMM300" sample_pmm_entry)
  <> Device_device_id (Device.init "PMM300" other_entry).
Proof.
  assert (entry_id sample_pmm_entry <> entry_id other_entry) as H1
    by (intros H; discriminate H).
  refine (conj H1 _).
  exact (proj1 (device_id_injective "PMM300" sample_pmm_entry other_entry H1)).
Defined.

(** X21: [remove_callback] undoes [register_callback] for a callback that was
    not registered before; removing a callback that is not registered
    changes nothing (and raises nothing); registering a callback twice is
    registering it once. *)
Theorem callbacks_round_trip {K : Type} `{Countable K}
    (callback : K) (callbacks : gset K) :
  callback ∉ callbacks ->
  remove_callback callback (register_callback callback callbacks) = callbacks /\
  remove_callback callback callbacks = callbacks /\
  register_callback callback (register_callback callback callbacks)
  = register_callback callback callbacks.
Proof.
  intros Hnotin. unfold remove_callback, register_callback.
  split; [|split]; apply set_eq; intros x;
    rewrite ?elem_of_difference, ?elem_of_union, ?elem_of_singleton.
  - split; [by intros [[->|Hx] Hne]|].
    intros Hx. split; [by right|]. by intros ->.
  - split; [by intros [Hx _]|].
    intros Hx. split; [done|]. by intros ->.
  - split; [intros [->|[->|Hx]]; auto|intros [->|Hx]; auto].
Qed.

Lemma callbacks_round_trip_witness :
  (1%nat ∉ ({[ 2%nat ]} : gset nat)) /\
  remove_callback 1%nat (register_callback 1%nat ({[ 2%nat ]} : gset nat))
  = {[ 2%nat ]}.
Proof.
  assert (1%nat ∉ ({[ 2%nat ]} : gset nat)) as H1
    by (intros H; apply elem_of_singleton in H; lia).
  refine (conj H1 _).
  exact (proj1 (callbacks_round_trip 1%nat {[ 2%nat ]} H1)).
Defined.

(** ** Rounding and naming *)

(** X22: On 16-bit registers the [round] of the AQM rules changes nothing: the
    AQM temperature rule [round(r[0] / 10, 1)] and the PMM voltage rule
    [r[0] / 10] agree on every snapshot, and the AQM humidity rule is
    [r[1] / 10]. *)
Theorem aqm_round_redundant (r : list Z) :
  Forall u16 r ->
  AQM_handler "temperature" r = PMM_handler PMM_KEY_VOLTAGE r /\
  AQM_handler "humidity" r
  = (x <- getitem r 1 ;; q <- int_truediv x 10 ;; Ok (VFloat q)).
Proof.
  intros Hr.
  rewrite AQM_handler_temperature, AQM_handler_humidity, PMM_handler_voltage.
  split.
  - destruct (getitem r 0) as [x|ex] eqn:Hx; [|done].
    destruct (scaled_handler_ok r 0 1 x) as (y & H1 & H2 & _);
      [by left|done|by apply (getitem_u16 r 0)|].
    rewrite Hx in H1, H2. change (10 ^ 1) with 10 in H1, H2. congruence.
  - destruct (getitem r 1) as [x|ex] eqn:Hx; [|done].
    destruct (scaled_handler_ok r 1 1 x) as (y & H1 & H2 & _);
      [by left|done|by apply (getitem_u16 r 1)|].
    rewrite Hx in H1, H2. change (10 ^ 1) with 10 in H1, H2. congruence.
Qed.

Lemma aqm_round_redundant_witness :
  Forall u16 [215; 455; 612; 12; 20; 31; 300] /\
  AQM_handler "temperature" [215; 455; 612; 12; 20; 31; 300]
  = PMM_handler PMM_KEY_VOLTAGE [215; 455; 612; 12; 20; 31; 300].
Proof.
  assert (Forall u16 [215; 455; 612; 12; 20; 31; 300]) as H1
    by (repeat constructor; unfold u16; lia).
  refine (conj H1 _).
  exact (proj1 (aqm_round_redundant [215; 455; 612; 12; 20; 31; 300] H1)).
Defined.

Lemma Forall2_fmap_eq_r {A B C : Type} (P : A -> B -> Prop) (f g : B -> C) l es :
  Forall2 P l es -> (forall k e, P k e -> f e = g e) -> f <$> es = g <$> es.
Proof.
  induction 1 as [|k e l es Hke _ IH]; intros HP; cbn; [done|].
  by rewrite (HP k e Hke), IH.
Qed.

(** X23: The display names follow the name of the proxy: without a name, or
    with the empty string as name, every entity is named by its unique
    identifier; with a non-empty name [n] the entities are named
    [n #sub_id], in the order of the keys. *)
Theorem entity_names_follow_proxy_name (st : Store) (self : nat)
    (p : SihasProxy.t) :
  proxies st !! self = Some p ->
  exists pmm aqm,
    Pmm300_get_sub_entities self st = (Ok pmm, st) /\
    Aqm300_get_sub_entities self st = (Ok aqm, st) /\
    (SihasProxy.name p = None \/ SihasProxy.name p = Some ""%string ->
     SensorEntity._attr_name <$> pmm = SensorEntity._attr_unique_id <$> pmm /\
     SensorEntity._attr_name <$> aqm = SensorEntity._attr_unique_id <$> aqm) /\
    (forall n, SihasProxy.name p = Some n -> n <> ""%string ->
     SensorEntity._attr_name <$> pmm
     = (fun key => n +:+ " #" +:+ key) <$> PMM_keys /\
     SensorEntity._attr_name <$> aqm
     = (fun key => n +:+ " #" +:+ key) <$> AQM_keys).
Proof.
  intros Hp.
  destruct (Pmm300_get_sub_entities_run st self p Hp) as (pmm & Hpmm & HFp).
  destruct (Aqm300_get_sub_entities_run st self p Hp) as (aqm & Haqm & HFa).
  exists pmm, aqm. split; [done|]. split; [done|]. split.
  - intros Hname. split.
    + eapply Forall2_fmap_eq_r; [exact HFp|].
      intros key e ((_ & _ & _ & Hu & Hn) & _). rewrite Hn, Hu.
      by destruct Hname as [-> | ->].
    + eapply Forall2_fmap_eq_r; [exact HFa|].
      intros key e ((_ & _ & _ & Hu & Hn) & _). rewrite Hn, Hu.
      by destruct Hname as [-> | ->].
  - intros n Hname Hn. destruct n as [|c n]; [done|]. split.
    + apply Forall2_fmap_eq. eapply Forall2_impl; [exact HFp|].
      intros key e ((_ & _ & _ & _ & Hnm) & _). by rewrite Hnm, Hname.
    + apply Forall2_fmap_eq. eapply Forall2_impl; [exact HFa|].
      intros key e ((_ & _ & _ & _ & Hnm) & _). by rewrite Hnm, Hname.
Qed.

Lemma entity_names_follow_proxy_name_witness :
  proxies named_store !! 0%nat = Some named_proxy /\
  exists aqm,
    Aqm300_get_sub_entities 0 named_store = (Ok aqm, named_store) /\
    SensorEntity._attr_name <$> aqm
    = [ "Living room #co2"; "Living room #pm25"; "Living room #pm10";
        "Living room #tvoc"; "Living room #humidity";
        "Living room #illuminance"; "Living room #temperature" ]%string.
Proof.
  assert (proxies named_store !! 0%nat = Some named_proxy) as H1
    by reflexivity.
  refine (conj H1 _).
  destruct (entity_names_follow_proxy_name named_store 0 named_proxy H1)
    as (pmm & aqm & _ & Ha & _ & Hn).
  exists aqm. split; [exact Ha|].
  exact (proj2 (Hn "Living room"%string eq_refl
                  ltac:(intros H; discriminate H))).
Defined.
